(** * zotero_ai_tagger: a shallow embedding of [zotero_ai_tagger.py]

    The tagger is a single Python class, [ZoteroTagger], plus a [main]
    entry point.  The mutable state of a run (the vocabulary set, the file
    system, the catalog, the log and the trace of calls to external
    services) is threaded explicitly through a state-and-exception monad.

    Boundaries of the model:
    - Python strings are [string]s; a character stands for a code point
      below 256, and the built-ins used by the source ([strip], [split],
      [join], [sorted], text-mode reading) are defined on them;
    - what the network, the PDF reader, the HTML parser and the language
      model answer is given by an environment [Env], free to raise;
    - the catalog is a store: reading an unknown key and writing with a
      stale version raise;
    - a write to the tags file either succeeds or fails when the file is
      opened, leaving the file as it was. *)

From Stdlib Require Import Ascii ZArith Lia.
From stdpp Require Import base option list gmap sets strings sorting pretty.

Local Open Scope Z_scope.
Local Open Scope stdpp_scope.

(** ** Python string built-ins *)

Module Py.

Definition LF : ascii := Ascii.ascii_of_nat 10.
Definition CR : ascii := Ascii.ascii_of_nat 13.

(** [str.isspace] on one character: TAB..CR, FS..US, SPACE, NEL, NBSP. *)
Definition isspace (c : ascii) : bool :=
  let n := Ascii.N_of_ascii c in
  (((9 <=? n) && (n <=? 13)) || ((28 <=? n) && (n <=? 32))
   || (n =? 133) || (n =? 160))%N.

(** Truthiness of a [str]: non-empty. *)
Definition truthy (s : string) : bool :=
  match s with EmptyString => false | String _ _ => true end.

Fixpoint lstrip (s : string) : string :=
  match s with
  | EmptyString => EmptyString
  | String c r => if isspace c then lstrip r else s
  end.

Fixpoint rstrip (s : string) : string :=
  match s with
  | EmptyString => EmptyString
  | String c r =>
      match rstrip r with
      | EmptyString => if isspace c then EmptyString else String c EmptyString
      | r' => String c r'
      end
  end.

(** [s.strip()] *)
Definition strip (s : string) : string := rstrip (lstrip s).

(** [s.split(sep)] for a one-character separator: empty fields are kept
    and the empty string yields one empty field. *)
Fixpoint split_on (sep : ascii) (s : string) : list string :=
  match s with
  | EmptyString => [EmptyString]
  | String c r =>
      if Ascii.eqb c sep then EmptyString :: split_on sep r
      else match split_on sep r with
           | t :: ts => String c t :: ts
           | [] => [String c EmptyString]
           end
  end.

(** [s.split()]: maximal runs of non-whitespace characters. *)
Fixpoint split (s : string) : list string :=
  match s with
  | EmptyString => []
  | String c r =>
      if isspace c then split r
      else match r with
           | EmptyString => [String c EmptyString]
           | String c' _ =>
               if isspace c' then String c EmptyString :: split r
               else match split r with
                    | t :: ts => String c t :: ts
                    | [] => [String c EmptyString]
                    end
           end
  end.

(** [sep.join(ws)] *)
Fixpoint join (sep : string) (ws : list string) : string :=
  match ws with
  | [] => EmptyString
  | [w] => w
  | w :: ws' => w +:+ sep +:+ join sep ws'
  end.

(** [sorted(xs)] on strings: ascending code-point order. *)
Definition sorted (xs : list string) : list string :=
  merge_sort String.le xs.

(** Text-mode reading with [newline=None]: every ["\r\n"] and every lone
    ["\r"] is delivered as ["\n"]. *)
Fixpoint universal_newlines (s : string) : string :=
  match s with
  | EmptyString => EmptyString
  | String c r =>
      if Ascii.eqb c CR then
        match r with
        | String c' r' =>
            if Ascii.eqb c' LF then String LF (universal_newlines r')
            else String LF (universal_newlines r)
        | EmptyString => String LF EmptyString
        end
      else String c (universal_newlines r)
  end.

(** The lines a text file object yields when iterated: each keeps its
    terminating ["\n"], the last one may lack it. *)
Fixpoint keepends (s : string) : list string :=
  match s with
  | EmptyString => []
  | String c r =>
      if Ascii.eqb c LF then String LF EmptyString :: keepends r
      else match keepends r with
           | l :: ls => String c l :: ls
           | [] => [String c EmptyString]
           end
  end.

Definition file_lines (content : string) : list string :=
  keepends (universal_newlines content).

End Py.

(** ** Data model *)

(** [ProcessingOptions]: the dataclass built from the command line.  A
    [Path] is always truthy, so [tags_file] is falsy exactly when [None]. *)
Record ProcessingOptions := {
  url_fallback : bool;
  url_always : bool;
  parse_pdf : bool;
  tags_file : option string
}.

(** One entry of an item's tag list, [{'tag': ..., 'type': ...}]; the
    ['type'] key is optional. *)
Record TagEntry := { tag : string; tag_type : option Z }.

(** [item['data']]: the tag list under ['tags'] (absent when [None]) and
    every other field. *)
Record ItemData := {
  tags : option (list TagEntry);
  fields : gmap string string
}.

Record Item := { key : string; version : Z; data : ItemData }.

(** A child of an item: [attachment['data']] with its optional
    ['contentType'] and ['url'] keys (a note child has neither). *)
Record Attachment := {
  contentType : option string;
  att_url : option string
}.

(** The catalog service behind [self.zot]. *)
Record Catalog := {
  cat_items : gmap string Item;
  cat_children : gmap string (list Attachment);
  cat_top : list string;
  cat_version : Z
}.

(** The normalised record built by [get_document_metadata]. *)
Record Metadata := {
  md_title : string;
  md_abstract : string;
  md_key : string;
  md_item_type : string;
  md_existing_tags : list string;
  md_url : string;
  md_pdf_attachment : option string
}.

(** Exceptions, by class name and [str(e)]. *)
Record exn := Exn { exn_class : string; exn_str : string }.

Inductive result (A : Type) : Type :=
| Ok (a : A)
| Raise (e : exn).
Arguments Ok {A} a.
Arguments Raise {A} e.

(** A block of a language-model response; only text blocks have [.text]. *)
Inductive ContentBlock :=
| TextBlock (text : string)
| OtherBlock.

(** Calls that leave the process. *)
Inductive Event :=
| HttpGetPage (url : string)
| HttpGetPdf (url : string)
| LlmCreate (prompt : string)
| ZotTop (limit : option Z)
| ZotChildren (k : string)
| ZotItem (k : string)
| ZotUpdateItem (it : Item)
| Sleep (seconds : Z).

Inductive Level := INFO | WARNING | ERROR.

(** A log record: the f-string's text, with list arguments kept as lists. *)
Inductive LogMsg :=
| MsgText (s : string)
| MsgSuggested (ts : list string)
| MsgExisting (ts : list string).

(** What lies outside the program.  Each oracle answers from the history of
    external calls made so far.
    - [fetch_page]: [requests.get] of a page, HTML parsing and the choice of
      the content container, giving the text called [content] in the source;
    - [fetch_pdf]: [requests.get] and [PdfReader], giving for each page what
      [extract_text()] returns or raises;
    - [llm_create]: [anthropic.messages.create], giving [response.content];
    - [str_of_list]: [str()] of a list of strings;
    - [default_limit]: the page size of [zot.top] when no limit is given. *)
Record Env := {
  fetch_page : list Event -> string -> result string;
  fetch_pdf : list Event -> string -> result (list (result string));
  llm_create : list Event -> string -> result (list ContentBlock);
  str_of_list : list string -> string;
  default_limit : nat
}.

(** The mutable state of a run. *)
Record State := {
  existing_tags : gset string;
  fs : gmap string string;
  readonly : gset string;
  catalog : Catalog;
  trace : list Event;
  log : list (Level * LogMsg)
}.

Definition set_existing_tags (v : gset string) (st : State) : State :=
  {| existing_tags := v; fs := fs st; readonly := readonly st;
     catalog := catalog st; trace := trace st; log := log st |}.
Definition set_fs (f : gmap string string) (st : State) : State :=
  {| existing_tags := existing_tags st; fs := f; readonly := readonly st;
     catalog := catalog st; trace := trace st; log := log st |}.
Definition set_catalog (c : Catalog) (st : State) : State :=
  {| existing_tags := existing_tags st; fs := fs st; readonly := readonly st;
     catalog := c; trace := trace st; log := log st |}.
Definition add_event (e : Event) (st : State) : State :=
  {| existing_tags := existing_tags st; fs := fs st; readonly := readonly st;
     catalog := catalog st; trace := trace st ++ [e]; log := log st |}.
Definition add_log (l : Level) (m : LogMsg) (st : State) : State :=
  {| existing_tags := existing_tags st; fs := fs st; readonly := readonly st;
     catalog := catalog st; trace := trace st; log := log st ++ [(l, m)] |}.

(** ** The state-and-exception monad *)

Definition M (A : Type) : Type := State -> result A * State.

Definition ret {A} (a : A) : M A := fun st => (Ok a, st).
Definition raise {A} (e : exn) : M A := fun st => (Raise e, st).
Definition bind {A B} (m : M A) (k : A -> M B) : M B :=
  fun st => match m st with
            | (Ok a, st') => k a st'
            | (Raise e, st') => (Raise e, st')
            end.
Definition get : M State := fun st => (Ok st, st).
Definition modify (f : State -> State) : M unit := fun st => (Ok tt, f st).
Definition lift {A} (r : result A) : M A := fun st => (r, st).

(** [try: body except Exception as e: handler e]; the state changes made by
    [body] before it raised are kept. *)
Definition try_except {A} (body : M A) (handler : exn -> M A) : M A :=
  fun st => match body st with
            | (Ok a, st') => (Ok a, st')
            | (Raise e, st') => handler e st'
            end.

Notation "x <- c1 ;; c2" := (bind c1 (fun x => c2))
  (at level 100, c1 at next level, right associativity).
Notation "c1 ;; c2" := (bind c1 (fun _ => c2))
  (at level 100, right associativity).

Definition logger (l : Level) (m : LogMsg) : M unit := modify (add_log l m).
Definition logger_text (l : Level) (s : string) : M unit := logger l (MsgText s).

(** ** The class [ZoteroTagger] *)

Definition nl : string := String Py.LF EmptyString.

(** [[x.strip() for x in xs if x.strip()]] *)
Definition stripped_nonempty (xs : list string) : list string :=
  List.filter Py.truthy (map Py.strip xs).

(** What [save_existing_tags] writes: [f.write(f"{tag}\n")] for each tag. *)
Fixpoint write_lines (ts : list string) : string :=
  match ts with
  | [] => EmptyString
  | t :: ts' => t +:+ nl +:+ write_lines ts'
  end.

(** [" ".join(text.split()[:2000])] *)
Definition truncate_words (text : string) : string :=
  Py.join " " (take 2000%nat (Py.split text)).

(** The loop of [extract_text_from_pdf] over [pdf_reader.pages[:5]]. *)
Fixpoint read_pages (pages : list (result string)) (text : string)
  : result string :=
  match pages with
  | [] => Ok text
  | Ok t :: rest => read_pages rest (text +:+ t +:+ nl)
  | Raise e :: _ => Raise e
  end.

(** The attachment loop of [get_document_metadata]. *)
Fixpoint find_pdf (attachments : list Attachment) : result (option string) :=
  match attachments with
  | [] => Ok None
  | a :: rest =>
      match contentType a with
      | None => Raise (Exn "KeyError" "'contentType'")
      | Some ct =>
          if String.eqb ct "application/pdf" then
            match att_url a with
            | Some u => Ok (Some u)
            | None => find_pdf rest
            end
          else find_pdf rest
      end
  end.

(** The loop of [update_item_tags]: a new tag is appended unless some entry
    of the list built so far already carries it. *)
Definition merge_tags (current_tags : list TagEntry) (new_tags : list string)
  : list TagEntry :=
  fold_left
    (fun cur t =>
       if decide (t ∈ map tag cur) then cur
       else cur ++ [{| tag := t; tag_type := None |}])
    new_tags current_tags.

Definition set_item_tags (it : Item) (ts : list TagEntry) : Item :=
  {| key := key it; version := version it;
     data := {| tags := Some ts; fields := fields (data it) |} |}.

Definition set_pdf_attachment (m : Metadata) (p : option string) : Metadata :=
  {| md_title := md_title m; md_abstract := md_abstract m; md_key := md_key m;
     md_item_type := md_item_type m; md_existing_tags := md_existing_tags m;
     md_url := md_url m; md_pdf_attachment := p |}.

(** The two prompt templates of [get_claude_suggestions]. *)
Definition indent : string := "            ".

Definition prompt_rules : string :=
  indent +:+ "Create new tags if one of the central concepts from the paper is not among the existing tags. The document is already from an AI/ML collection, so refrain from setting generic tags like 'Machine Learning' or 'Computer Science'. " +:+ nl +:+
  indent +:+ "Tags should be in Capital Case with spaces as separators (e.g., LLM Jailbreaking, Protein Design, ...)" +:+ nl.

Definition prompt_footer : string :=
  indent +:+ "Please respond with ONLY the tags, one per line, nothing else.".

Definition conservative_line : string :=
  "Be conservative with tag suggestions when working with title only.".

Definition title_only_prompt (vocabulary : string) (part : string) : string :=
  "Please suggest 3-5 relevant tags for this document based only on its title." +:+ nl +:+
  indent +:+ "Apply suitable tags from this existing set: " +:+ vocabulary +:+ nl +:+
  prompt_rules +:+
  indent +:+ conservative_line +:+ nl +:+
  nl +:+
  indent +:+ part +:+ nl +:+
  nl +:+
  prompt_footer.

Definition multi_field_prompt (vocabulary : string) (parts : list string) : string :=
  "Please analyze this document and suggest 3-5 relevant tags." +:+ nl +:+
  indent +:+ "Apply suitable tags from this existing set: " +:+ vocabulary +:+ nl +:+
  prompt_rules +:+
  nl +:+
  indent +:+ Py.join nl parts +:+ nl +:+
  nl +:+
  prompt_footer.

Section Tagger.
Context (E : Env) (options : ProcessingOptions).

(** *** Calls to external services *)

Definition requests_get_page (url : string) : M string :=
  st <- get ;;
  modify (add_event (HttpGetPage url)) ;;
  lift (fetch_page E (trace st) url).

Definition requests_get_pdf (url : string) : M (list (result string)) :=
  st <- get ;;
  modify (add_event (HttpGetPdf url)) ;;
  lift (fetch_pdf E (trace st) url).

Definition anthropic_messages_create (prompt : string)
  : M (list ContentBlock) :=
  st <- get ;;
  modify (add_event (LlmCreate prompt)) ;;
  lift (llm_create E (trace st) prompt).

Definition zot_children (k : string) : M (list Attachment) :=
  modify (add_event (ZotChildren k)) ;;
  st <- get ;;
  match cat_children (catalog st) !! k with
  | Some l => ret l
  | None => raise (Exn "ResourceNotFound" ("Item not found: " +:+ k))
  end.

Definition zot_item (k : string) : M Item :=
  modify (add_event (ZotItem k)) ;;
  st <- get ;;
  match cat_items (catalog st) !! k with
  | Some it => ret it
  | None => raise (Exn "ResourceNotFound" ("Item not found: " +:+ k))
  end.

(** The catalog stores the item it is sent when the item's version is the
    stored one, and gives it the next library version. *)
Definition zot_update_item (it : Item) : M unit :=
  modify (add_event (ZotUpdateItem it)) ;;
  st <- get ;;
  let c := catalog st in
  match cat_items c !! key it with
  | Some cur =>
      if decide (version cur = version it) then
        let v := cat_version c + 1 in
        let stored := {| key := key it; version := v; data := data it |} in
        modify (set_catalog
                  {| cat_items := <[key it := stored]> (cat_items c);
                     cat_children := cat_children c;
                     cat_top := cat_top c;
                     cat_version := v |})
      else raise (Exn "PreConditionFailed" ("Version mismatch: " +:+ key it))
  | None => raise (Exn "ResourceNotFound" ("Item not found: " +:+ key it))
  end.

Definition zot_top (limit : option Z) : M (list Item) :=
  modify (add_event (ZotTop limit)) ;;
  st <- get ;;
  let c := catalog st in
  let n := match limit with
           | Some l => Z.to_nat l
           | None => default_limit E
           end in
  ret (take n (omap (fun k => cat_items c !! k) (cat_top c))).

(** *** Methods *)

Definition load_existing_tags : M unit :=
  st <- get ;;
  match tags_file options with
  | Some p =>
      match fs st !! p with
      | Some content =>
          let loaded : gset string :=
            list_to_set (stripped_nonempty (Py.file_lines content)) in
          modify (set_existing_tags loaded) ;;
          logger_text INFO ("Loaded " +:+ pretty (size loaded)
                            +:+ " existing tags from " +:+ p)
      | None =>
          modify (set_existing_tags ∅) ;;
          logger_text INFO "Starting with empty tags set"
      end
  | None =>
      modify (set_existing_tags ∅) ;;
      logger_text INFO "Starting with empty tags set"
  end.

(** Opening a read-only path for writing raises before the file is
    touched. *)
Definition save_existing_tags : M unit :=
  match tags_file options with
  | Some p =>
      st <- get ;;
      if decide (p ∈ readonly st) then
        raise (Exn "PermissionError" ("[Errno 13] Permission denied: " +:+ p))
      else
        modify (set_fs
                  (<[p := write_lines (Py.sorted (elements (existing_tags st)))]>
                     (fs st))) ;;
        logger_text INFO ("Saved " +:+ pretty (size (existing_tags st))
                          +:+ " tags to " +:+ p)
  | None => ret tt
  end.

Definition extract_text_from_pdf (pdf_url : string) : M (option string) :=
  if negb (parse_pdf options) then ret None
  else
    try_except
      (pages <- requests_get_pdf pdf_url ;;
       text <- lift (read_pages (take 5%nat pages) EmptyString) ;;
       ret (Some (truncate_words text)))
      (fun e =>
         logger_text ERROR ("Error extracting PDF text: " +:+ exn_str e) ;;
         ret None).

Definition extract_text_from_webpage (url : string) (has_pdf : bool)
  : M (option string) :=
  if negb (url_always options || (url_fallback options && negb has_pdf))
  then ret None
  else
    try_except
      (content <- requests_get_page url ;;
       ret (Some (truncate_words content)))
      (fun e =>
         logger_text ERROR ("Error extracting webpage content: " +:+ exn_str e) ;;
         ret None).

Definition field (d : ItemData) (k : string) : string :=
  default EmptyString (fields d !! k).

Definition get_document_metadata (item : Item) : M Metadata :=
  let d := data item in
  let metadata :=
    {| md_title := field d "title";
       md_abstract := field d "abstractNote";
       md_key := field d "key";
       md_item_type := field d "itemType";
       md_existing_tags := map tag (default [] (tags d));
       md_url := field d "url";
       md_pdf_attachment := None |} in
  try_except
    (attachments <- zot_children (md_key metadata) ;;
     pdf <- lift (find_pdf attachments) ;;
     ret (set_pdf_attachment metadata pdf))
    (fun e =>
       logger_text ERROR ("Error getting attachments: " +:+ exn_str e) ;;
       ret metadata).

(** Truthiness of an optional string ([None] and the empty string are falsy). *)
Definition opt_truthy (o : option string) : bool :=
  match o with
  | Some s => Py.truthy s
  | None => false
  end.

(** [content_parts.append(label + value)] when [value] is truthy. *)
Definition append_part (parts : list string) (label : string)
           (value : option string) : list string :=
  match value with
  | Some s => if Py.truthy s then parts ++ [label +:+ s] else parts
  | None => parts
  end.

(** Lines 180-200 of the source: the list [content_parts]. *)
Definition collect_content_parts (metadata : Metadata) : M (list string) :=
  let parts0 := append_part [] "Title: " (Some (md_title metadata)) in
  let parts1 := append_part parts0 "Abstract: " (Some (md_abstract metadata)) in
  let has_pdf := opt_truthy (md_pdf_attachment metadata) in
  parts2 <- (if Py.truthy (md_url metadata) then
               webpage_content <-
                 extract_text_from_webpage (md_url metadata) has_pdf ;;
               ret (append_part parts1 "Webpage content: " webpage_content)
             else ret parts1) ;;
  if has_pdf && parse_pdf options then
    pdf_content <-
      extract_text_from_pdf (default EmptyString (md_pdf_attachment metadata)) ;;
    ret (append_part parts2 "PDF content: " pdf_content)
  else ret parts2.

(** Lines 202-221: the choice between the two templates. *)
Definition build_prompt (vocabulary : gset string) (title : string)
           (content_parts : list string) : string :=
  let shown := str_of_list E (Py.sorted (elements vocabulary)) in
  if (length content_parts =? 1)%nat && Py.truthy title then
    title_only_prompt shown (default EmptyString (head content_parts))
  else multi_field_prompt shown content_parts.

(** [response.content[0].text] *)
Definition first_block_text (content : list ContentBlock) : result string :=
  match content with
  | [] => Raise (Exn "IndexError" "list index out of range")
  | TextBlock text :: _ => Ok text
  | OtherBlock :: _ =>
      Raise (Exn "AttributeError" "object has no attribute 'text'")
  end.

(** Lines 224-238: the body of the [try]. *)
Definition request_suggestions (prompt : string) : M (list string) :=
  content <- anthropic_messages_create prompt ;;
  text <- lift (first_block_text content) ;;
  let suggested_tags := stripped_nonempty (Py.split_on Py.LF text) in
  modify (fun st =>
            set_existing_tags
              (existing_tags st ∪ list_to_set suggested_tags) st) ;;
  save_existing_tags ;;
  ret suggested_tags.

Definition suggestion_error (e : exn) : LogMsg :=
  MsgText ("Error getting Claude suggestions: " +:+ exn_str e).

Definition get_claude_suggestions (metadata : Metadata) : M (list string) :=
  content_parts <- collect_content_parts metadata ;;
  st <- get ;;
  let prompt :=
    build_prompt (existing_tags st) (md_title metadata) content_parts in
  try_except
    (request_suggestions prompt)
    (fun e => logger ERROR (suggestion_error e) ;; ret []).

Definition update_item_tags (item_key : string) (new_tags : list string)
  : M unit :=
  try_except
    (item <- zot_item item_key ;;
     match tags (data item) with
     | Some current_tags =>
         zot_update_item
           (set_item_tags item (merge_tags current_tags new_tags))
     | None => raise (Exn "KeyError" "'tags'")
     end)
    (fun e =>
       logger_text ERROR ("Error updating item " +:+ item_key +:+ ": "
                          +:+ exn_str e)).

(** One iteration of the loop of [process_library]. *)
Definition process_item (total_items i : nat) (item : Item) : M unit :=
  metadata <- get_document_metadata item ;;
  logger_text INFO (nl +:+ "Processing item " +:+ pretty i +:+ "/"
                    +:+ pretty total_items +:+ ": " +:+ md_title metadata) ;;
  logger_text INFO ("Item type: " +:+ md_item_type metadata) ;;
  if negb (Py.truthy (md_title metadata)) then
    logger_text WARNING "Skipping item with no title"
  else
    try_except
      (suggested_tags <- get_claude_suggestions metadata ;;
       match suggested_tags with
       | _ :: _ =>
           logger INFO (MsgSuggested suggested_tags) ;;
           logger INFO (MsgExisting (md_existing_tags metadata)) ;;
           update_item_tags (md_key metadata) suggested_tags ;;
           logger_text INFO "Tags updated successfully"
       | [] => logger_text WARNING "No tags were suggested"
       end ;;
       modify (add_event (Sleep 1)))
      (fun e =>
         logger_text ERROR ("Error processing item: " +:+ exn_str e)).

Fixpoint process_items (total_items i : nat) (items : list Item) : M unit :=
  match items with
  | [] => ret tt
  | item :: rest =>
      process_item total_items i item ;;
      process_items total_items (S i) rest
  end.

Definition process_library (limit : option Z) : M unit :=
  items <- zot_top limit ;;
  process_items (length items) 1 items.

(** *** Construction *)

(** [required_vars], in insertion order; [environ] is the process
    environment after [load_dotenv()]. *)
Definition required_vars (environ : gmap string string)
  : list (string * option string) :=
  [ ("ZOTERO_LIBRARY_ID", environ !! "ZOTERO_LIBRARY_ID");
    ("ZOTERO_LIBRARY_TYPE",
      Some (default "group" (environ !! "ZOTERO_LIBRARY_TYPE")));
    ("ZOTERO_API_KEY", environ !! "ZOTERO_API_KEY");
    ("ANTHROPIC_API_KEY", environ !! "ANTHROPIC_API_KEY") ].

(** [[k for k, v in required_vars.items() if not v]] *)
Definition missing (environ : gmap string string) : list string :=
  map fst (List.filter (fun kv => negb (opt_truthy (snd kv)))
                       (required_vars environ)).

Definition missing_message (names : list string) : string :=
  "Missing environment variables: " +:+ Py.join ", " names.

(** [__init__]: building the two clients and configuring logging make no
    call to the catalog or the language model. *)
Definition ZoteroTagger_init (environ : gmap string string) : M unit :=
  match missing environ with
  | _ :: _ => raise (Exn "ValueError" (missing_message (missing environ)))
  | [] =>
      modify (set_existing_tags ∅) ;;
      load_existing_tags
  end.

End Tagger.

(** ** The entry point *)

(** The names bound at module level when [main] runs: the imports, the two
    classes and [main] itself. *)
Definition module_globals : list string :=
  [ "os"; "load_dotenv"; "zotero"; "Anthropic"; "json"; "List"; "Dict";
    "Set"; "Optional"; "time"; "Path"; "requests"; "PyPDF2"; "BytesIO";
    "BeautifulSoup"; "logging"; "dataclass"; "ProcessingOptions";
    "ZoteroTagger"; "main" ].

(** Evaluating a global name that is neither bound in the module nor a
    built-in. *)
Definition load_global (name : string) : M unit :=
  if decide (name ∈ module_globals) then ret tt
  else raise (Exn "NameError" ("name '" +:+ name +:+ "' is not defined")).

(** What [parser.parse_args()] returns for the five declared arguments. *)
Record Namespace := {
  ns_url_fallback : bool;
  ns_url_always : bool;
  ns_parse_pdf : bool;
  ns_tags_file : option string;
  ns_limit : option Z
}.

Definition options_of (args : Namespace) : ProcessingOptions :=
  {| url_fallback := ns_url_fallback args;
     url_always := ns_url_always args;
     parse_pdf := ns_parse_pdf args;
     tags_file := ns_tags_file args |}.

(** [main]; [parse_args] stands for the [argparse] parser the body
    declares, [argv] for the command line. *)
Definition main (E : Env) (parse_args : list string -> result Namespace)
           (environ : gmap string string) (argv : list string) : M unit :=
  load_global "argparse" ;;
  args <- lift (parse_args argv) ;;
  ZoteroTagger_init (options_of args) environ ;;
  process_library E (options_of args) (ns_limit args).

(** * Notions used in the statements *)

Ltac unfold_monad :=
  unfold bind, ret, raise, get, modify, lift, try_except, logger_text, logger in *.

Ltac run_monad := unfold_monad; cbn [fst snd] in *.

(** The guard of [extract_text_from_webpage]. *)
Definition should_fetch_url (options : ProcessingOptions) (has_pdf : bool)
  : bool :=
  url_always options || (url_fallback options && negb has_pdf).

(** The URLs of the page requests in a trace of external calls. *)
Fixpoint page_requests (tr : list Event) : list string :=
  match tr with
  | [] => []
  | HttpGetPage u :: rest => u :: page_requests rest
  | _ :: rest => page_requests rest
  end.

Definition new_entry (t : string) : TagEntry :=
  {| tag := t; tag_type := None |}.

(** The suggested tags that are appended: those not yet seen, each at its
    first occurrence. *)
Fixpoint fresh_tags (seen new_tags : list string) : list string :=
  match new_tags with
  | [] => []
  | t :: rest =>
      if decide (t ∈ seen) then fresh_tags seen rest
      else t :: fresh_tags (seen ++ [t]) rest
  end.

Definition item_tags (st : State) (k : string) : option (list TagEntry) :=
  match cat_items (catalog st) !! k with
  | Some it => tags (data it)
  | None => None
  end.

(** The item [update_item_tags] sends to the catalog for a fetched item. *)
Definition written_item (it : Item) (cur : list TagEntry)
           (new_tags : list string) : Item :=
  set_item_tags it (merge_tags cur new_tags).

Fixpoint str_forall (p : ascii -> bool) (s : string) : bool :=
  match s with
  | EmptyString => true
  | String c r => p c && str_forall p r
  end.

(** A token: non-empty and free of whitespace. *)
Definition is_word (w : string) : bool :=
  Py.truthy w && str_forall (fun c => negb (Py.isspace c)) w.

Definition not_char (x c : ascii) : bool := negb (Ascii.eqb c x).

(** Neither a line feed nor a carriage return occurs in the tag. *)
Definition no_line_break (t : string) : bool :=
  str_forall (fun c => not_char Py.LF c && not_char Py.CR c) t.

(** A tag the file format can carry: non-empty, equal to its own
    [strip()], on one line. *)
Definition clean_tag (t : string) : bool :=
  Py.truthy t && String.eqb (Py.strip t) t && no_line_break t.

(** What surrounds the examples: a page, a two-page PDF, a language model
    with a fixed outcome, and an empty world. *)
Definition demo_env (answer : result (list ContentBlock)) : Env :=
  {| fetch_page :=
       fun _ _ => Ok ("  Attention   is all" +:+ nl +:+ " you need ");
     fetch_pdf := fun _ _ => Ok [Ok "Abstract  The dominant"; Ok "models"];
     llm_create := fun _ _ => answer;
     str_of_list := fun l => "[" +:+ Py.join ", " l +:+ "]";
     default_limit := 100 |}.

Definition demo_options : ProcessingOptions :=
  {| url_fallback := true; url_always := false; parse_pdf := true;
     tags_file := Some "tags.txt" |}.

Definition empty_state : State :=
  {| existing_tags := ∅; fs := ∅; readonly := ∅;
     catalog := {| cat_items := ∅; cat_children := ∅; cat_top := [];
                   cat_version := 0 |};
     trace := []; log := [] |}.

Definition title_only_metadata : Metadata :=
  {| md_title := "Attention Is All You Need"; md_abstract := EmptyString;
     md_key := "K1"; md_item_type := "journalArticle";
     md_existing_tags := []; md_url := EmptyString;
     md_pdf_attachment := None |}.

(** A tag with a carriage return inside: [a], CR, [b]. *)
Definition cr_tag : string := String "a" (String Py.CR "b").

Definition demo_vocabulary_state : State :=
  set_existing_tags {[ "Transformers"; "Attention Mechanisms" ]} empty_state.

(** The tags named by the ["Suggested tags"] records of a log. *)
Fixpoint suggested_in (l : list (Level * LogMsg)) : list string :=
  match l with
  | [] => []
  | (_, MsgSuggested ts) :: rest => ts ++ suggested_in rest
  | _ :: rest => suggested_in rest
  end.

(** [st'] differs from [st] at most by external calls made and by text
    records logged. *)
Definition only_io (st st' : State) : Prop :=
  existing_tags st' = existing_tags st
  /\ fs st' = fs st
  /\ readonly st' = readonly st
  /\ catalog st' = catalog st
  /\ suggested_in (log st') = suggested_in (log st).

(** [content_parts] for a title, an abstract and the two optional
    excerpts. *)
Definition assemble (title abstract : string) (web pdf : option string)
  : list string :=
  append_part
    (append_part
       (append_part (append_part [] "Title: " (Some title))
                    "Abstract: " (Some abstract))
       "Webpage content: " web)
    "PDF content: " pdf.

(** The title is available and no other field is. *)
Definition title_is_sole (title abstract : string) (web pdf : option string)
  : bool :=
  Py.truthy title && negb (Py.truthy abstract)
  && negb (opt_truthy web) && negb (opt_truthy pdf).

Definition count_available (title abstract : string) (web pdf : option string)
  : nat :=
  (Nat.b2n (Py.truthy title) + Nat.b2n (Py.truthy abstract)
   + Nat.b2n (opt_truthy web) + Nat.b2n (opt_truthy pdf))%nat.

(** [needle in hay] *)
Fixpoint contains (needle hay : string) : bool :=
  String.prefix needle hay
  || match hay with
     | EmptyString => false
     | String _ rest => contains needle rest
     end.

(** The tags read off a response text (line 232 of the source). *)
Definition parse_tags (text : string) : list string :=
  stripped_nonempty (Py.split_on Py.LF text).

(** The language-model call and the reading of [content[0].text], as one
    outcome. *)
Definition llm_text (E : Env) (st : State) (prompt : string) : result string :=
  match llm_create E (trace st) prompt with
  | Ok content => first_block_text content
  | Raise e => Raise e
  end.

Definition permission_error (p : string) : exn :=
  Exn "PermissionError" ("[Errno 13] Permission denied: " +:+ p).

(** The tag is on the tags file, when one is configured: the file is the
    written form of a vocabulary that has the tag. *)
Definition on_file (options : ProcessingOptions) (st : State) (t : string)
  : Prop :=
  match tags_file options with
  | Some p =>
      exists V : gset string,
        fs st !! p = Some (write_lines (Py.sorted (elements V))) /\ t ∈ V
  | None => True
  end.

(** Every tag logged so far as suggested is in the vocabulary and on the
    tags file. *)
Definition persisted (options : ProcessingOptions) (st : State) : Prop :=
  forall t, t ∈ suggested_in (log st) ->
            t ∈ existing_tags st /\ on_file options st t.

(** A catalog holding the one item of the scenario. *)
Definition demo_item : Item :=
  {| key := "K1"; version := 7;
     data := {| tags := Some [{| tag := "Seminal"; tag_type := Some 1 |}];
                fields := {[ "title" := "Attention Is All You Need";
                             "key" := "K1";
                             "itemType" := "journalArticle" ]} |} |}.

Definition demo_catalog_state : State :=
  set_catalog
    {| cat_items := {[ "K1" := demo_item ]};
       cat_children := {[ "K1" := [] ]};
       cat_top := ["K1"];
       cat_version := 7 |}
    empty_state.

Definition two_tags : result (list ContentBlock) :=
  Ok [TextBlock ("Transformers" +:+ nl +:+ "Attention Mechanisms" +:+ nl)].

(** The three values the tagger cannot start without. *)
Definition required_names : list string :=
  ["ZOTERO_LIBRARY_ID"; "ZOTERO_API_KEY"; "ANTHROPIC_API_KEY"].

(** The names [__init__] validates, in the order it declares them. *)
Definition validated_names : list string :=
  ["ZOTERO_LIBRARY_ID"; "ZOTERO_LIBRARY_TYPE"; "ZOTERO_API_KEY";
   "ANTHROPIC_API_KEY"].

(** The variable is unset, or set to the empty string. *)
Definition lacks_value (environ : gmap string string) (k : string) : bool :=
  negb (opt_truthy (environ !! k)).

(** The required variables that are unset. *)
Definition absent_required (environ : gmap string string) : list string :=
  List.filter (fun k => bool_decide (environ !! k = None)) required_names.

Definition demo_environ : gmap string string :=
  {[ "ZOTERO_LIBRARY_ID" := "1234567";
     "ZOTERO_LIBRARY_TYPE" := EmptyString;
     "ZOTERO_API_KEY" := "zk" ]}.

(** ** Notions used in the further properties *)

Definition is_llm_call (e : Event) : bool :=
  match e with LlmCreate _ => true | _ => false end.

Definition is_sleep (e : Event) : bool :=
  match e with Sleep _ => true | _ => false end.

Definition is_children_call (e : Event) : bool :=
  match e with ZotChildren _ => true | _ => false end.

Definition is_item_call (e : Event) : bool :=
  match e with ZotItem _ | ZotUpdateItem _ => true | _ => false end.

Definition is_http (e : Event) : bool :=
  match e with HttpGetPage _ | HttpGetPdf _ => true | _ => false end.

(** How many calls of one kind a trace holds. *)
Definition count_events (p : Event -> bool) (tr : list Event) : nat :=
  length (List.filter p tr).

(** The URLs of the PDF downloads in a trace of external calls. *)
Fixpoint pdf_requests (tr : list Event) : list string :=
  match tr with
  | [] => []
  | HttpGetPdf u :: rest => u :: pdf_requests rest
  | _ :: rest => pdf_requests rest
  end.

(** The item has a non-empty title. *)
Definition titled (item : Item) : bool :=
  Py.truthy (field (data item) "title").

(** A tag as the suggestion parser and the file reader produce it:
    non-empty, equal to its own [strip()], without a line feed. *)
Definition stripped_tag (t : string) : bool :=
  Py.truthy t && String.eqb (Py.strip t) t && str_forall (not_char Py.LF) t.

(** [text] followed by the text of each page and a line feed. *)
Fixpoint pages_text (text : string) (ts : list string) : string :=
  match ts with
  | [] => text
  | t :: rest => pages_text (text +:+ t +:+ nl) rest
  end.

(** A child that the attachment loop passes over: it has a content type,
    and is not a PDF carrying a URL. *)
Definition passed_over (a : Attachment) : bool :=
  match contentType a with
  | None => false
  | Some ct =>
      negb (String.eqb ct "application/pdf")
      || match att_url a with Some _ => false | None => true end
  end.


(** An environment to start from, and one whose language model is down. *)
Definition full_environ : gmap string string :=
  {[ "ZOTERO_LIBRARY_ID" := "1234567";
     "ZOTERO_API_KEY" := "zk";
     "ANTHROPIC_API_KEY" := "ak" ]}.

Definition llm_down : result (list ContentBlock) :=
  Raise (Exn "APIConnectionError" "Connection error.").

(** An item that has no title. *)
Definition untitled_item : Item :=
  {| key := "K2"; version := 3;
     data := {| tags := Some []; fields := {[ "key" := "K2" ]} |} |}.

(** A tags file with a blank line, padding, a repeated tag and a CR LF
    line end. *)
Definition messy_tags_file : string :=
  "  Transformers " +:+ nl +:+ nl +:+ "Attention Mechanisms"
  +:+ String Py.CR nl +:+ "Transformers" +:+ nl.

Definition messy_file_state : State :=
  set_fs {[ "tags.txt" := messy_tags_file ]} empty_state.

(** Children of an item: a snapshot, then two PDFs; and a note first. *)
Definition snapshot : Attachment :=
  {| contentType := Some "text/html"; att_url := Some "https://example.org/a" |}.

Definition stored_pdf : Attachment :=
  {| contentType := Some "application/pdf"; att_url := None |}.

Definition linked_pdf : Attachment :=
  {| contentType := Some "application/pdf";
     att_url := Some "https://example.org/a.pdf" |}.

Definition note_child : Attachment :=
  {| contentType := None; att_url := None |}.

Definition children_state (l : list Attachment) : State :=
  set_catalog
    {| cat_items := {[ "K1" := demo_item ]};
       cat_children := {[ "K1" := l ]};
       cat_top := ["K1"];
       cat_version := 7 |}
    empty_state.



(** * Properties *)

Example split_demo :
  Py.split "  a bc  d " = ["a"; "bc"; "d"]
  /\ Py.split_on Py.LF ("x" +:+ nl +:+ nl +:+ "y") = ["x"; EmptyString; "y"]
  /\ Py.strip "  a b  " = "a b"
  /\ Py.join " " ["a"; "b"; "c"] = "a b c".
Proof. repeat split; reflexivity. Qed.

(** ** Command line *)

(** C4 (as the code has it): [main] never reaches the argument parser.
    Its first statement evaluates the global name [argparse], which no
    import binds, so every invocation ends in [NameError] before any flag is
    read, with the state untouched. *)
Theorem main_raises_NameError
  (E : Env) (parse_args : list string -> result Namespace)
  (environ : gmap string string) (argv : list string) (st : State) :
  main E parse_args environ argv st
  = (Raise (Exn "NameError" "name 'argparse' is not defined"), st).
Proof. reflexivity. Qed.

(** ** Content selection policy *)

Section Policy.
Context (E : Env) (options : ProcessingOptions).

Lemma extract_text_from_webpage_skip url has_pdf st :
  should_fetch_url options has_pdf = false ->
  extract_text_from_webpage E options url has_pdf st = (Ok None, st).
Proof.
  unfold should_fetch_url, extract_text_from_webpage. intros ->. reflexivity.
Qed.

Lemma extract_text_from_webpage_fetch url has_pdf st :
  should_fetch_url options has_pdf = true ->
  trace (snd (extract_text_from_webpage E options url has_pdf st))
  = trace st ++ [HttpGetPage url].
Proof.
  unfold should_fetch_url, extract_text_from_webpage, requests_get_page.
  intros ->. run_monad. cbn.
  destruct (fetch_page E (trace st) url); reflexivity.
Qed.

Lemma page_requests_app tr1 tr2 :
  page_requests (tr1 ++ tr2) = page_requests tr1 ++ page_requests tr2.
Proof.
  induction tr1 as [|e tr1 IH]; [done|]. cbn. destruct e; by rewrite ?IH.
Qed.

Lemma extract_text_from_webpage_trace url has_pdf st :
  exists r st',
    extract_text_from_webpage E options url has_pdf st = (Ok r, st')
    /\ trace st'
       = trace st
         ++ (if should_fetch_url options has_pdf then [HttpGetPage url] else []).
Proof.
  unfold should_fetch_url, extract_text_from_webpage, requests_get_page.
  run_monad.
  destruct (url_always options || (url_fallback options && negb has_pdf)); cbn.
  - destruct (fetch_page E (trace st) url); cbn; by do 2 eexists.
  - do 2 eexists. by rewrite app_nil_r.
Qed.

Lemma extract_text_from_pdf_trace pdf_url st :
  exists r st',
    extract_text_from_pdf E options pdf_url st = (Ok r, st')
    /\ page_requests (trace st') = page_requests (trace st).
Proof.
  unfold extract_text_from_pdf, requests_get_pdf. run_monad.
  destruct (parse_pdf options); cbn; [|by do 2 eexists].
  destruct (fetch_pdf E (trace st) pdf_url) as [pages|e]; cbn;
    [destruct (read_pages (take 5%nat pages) EmptyString); cbn|];
    do 2 eexists; (split; [done|]); cbn;
    by rewrite page_requests_app, app_nil_r.
Qed.

(** The page requests made while the content of an item is collected. *)
Lemma collect_content_parts_pages metadata st :
  page_requests (trace (snd (collect_content_parts E options metadata st)))
  = page_requests (trace st)
    ++ (if Py.truthy (md_url metadata)
           && should_fetch_url options
                (opt_truthy (md_pdf_attachment metadata))
        then [md_url metadata] else []).
Proof.
  unfold collect_content_parts. run_monad.
  set (has_pdf := opt_truthy (md_pdf_attachment metadata)).
  destruct (Py.truthy (md_url metadata)); cbn.
  - destruct (extract_text_from_webpage_trace (md_url metadata) has_pdf st)
      as (web & st1 & -> & Htr).
    assert (Hpages : page_requests (trace st1)
                     = page_requests (trace st)
                       ++ (if should_fetch_url options has_pdf
                           then [md_url metadata] else [])).
    { rewrite Htr, page_requests_app.
      by destruct (should_fetch_url options has_pdf). }
    destruct (has_pdf && parse_pdf options); [|done].
    destruct (extract_text_from_pdf_trace
                (default EmptyString (md_pdf_attachment metadata)) st1)
      as (pdf & st2 & -> & Htr2).
    cbn. by rewrite Htr2.
  - destruct (has_pdf && parse_pdf options); [|by rewrite app_nil_r].
    destruct (extract_text_from_pdf_trace
                (default EmptyString (md_pdf_attachment metadata)) st)
      as (pdf & st2 & -> & Htr2).
    cbn. by rewrite Htr2, app_nil_r.
Qed.

End Policy.

(** C2: [extract_text_from_webpage] fetches the URL exactly when
    [url_always] is set, or [url_fallback] is set and the item has no PDF
    (one request, appended to the trace of external calls); otherwise it
    returns [None] at once and leaves the whole state, hence the trace,
    as it was.  With [url_fallback] set, [url_always] clear and a PDF
    present, nothing is fetched.  The caller passes as [has_pdf] the
    truthiness of the item's PDF URL, so for an item with a URL the pages
    requested while its content is collected follow the same rule. *)
Theorem extract_text_from_webpage_policy
  (E : Env) (options : ProcessingOptions) (url : string) (has_pdf : bool)
  (st : State) :
  let out := extract_text_from_webpage E options url has_pdf st in
  (if url_always options || (url_fallback options && negb has_pdf)
   then trace (snd out) = trace st ++ [HttpGetPage url]
   else out = (Ok None, st))
  /\ (forall p t,
        extract_text_from_webpage E
          {| url_fallback := true; url_always := false;
             parse_pdf := p; tags_file := t |} url true st
        = (Ok None, st))
  /\ (forall metadata,
        page_requests
          (trace (snd (collect_content_parts E options metadata st)))
        = page_requests (trace st)
          ++ (if Py.truthy (md_url metadata)
                 && (url_always options
                     || (url_fallback options
                         && negb (opt_truthy (md_pdf_attachment metadata))))
              then [md_url metadata] else [])).
Proof.
  split; [|split].
  - destruct (url_always options || (url_fallback options && negb has_pdf))
      eqn:Hc.
    + by apply extract_text_from_webpage_fetch.
    + by apply extract_text_from_webpage_skip.
  - intros p t. reflexivity.
  - intros metadata. apply collect_content_parts_pages.
Qed.

(** ** Merging suggested tags into an item *)

Section Merge.

Lemma merge_tags_cons cur t rest :
  merge_tags cur (t :: rest)
  = merge_tags (if decide (t ∈ map tag cur) then cur
                else cur ++ [new_entry t]) rest.
Proof. reflexivity. Qed.

Lemma merge_tags_appends new_tags : forall cur,
  merge_tags cur new_tags
  = cur ++ map new_entry (fresh_tags (map tag cur) new_tags).
Proof.
  induction new_tags as [|t rest IH]; intros cur.
  - cbn. by rewrite app_nil_r.
  - rewrite merge_tags_cons. cbn [fresh_tags].
    destruct (decide (t ∈ map tag cur)) as [Hin|Hout].
    + apply IH.
    + rewrite IH, map_app. cbn. by rewrite <- app_assoc.
Qed.

Lemma merge_tags_keeps new_tags : forall cur t,
  t ∈ map tag cur -> t ∈ map tag (merge_tags cur new_tags).
Proof.
  intros cur t Hin. rewrite merge_tags_appends, map_app.
  apply elem_of_app. by left.
Qed.

Lemma merge_tags_covers new_tags : forall cur t,
  t ∈ new_tags -> t ∈ map tag (merge_tags cur new_tags).
Proof.
  induction new_tags as [|u rest IH]; intros cur t Hin.
  - by apply elem_of_nil in Hin.
  - rewrite merge_tags_cons. apply elem_of_cons in Hin as [->|Hin].
    + apply merge_tags_keeps.
      destruct (decide (u ∈ map tag cur)); [done|].
      rewrite map_app. apply elem_of_app. right. cbn. by left.
    + by apply IH.
Qed.

Lemma merge_tags_present new_tags : forall cur,
  (forall t, t ∈ new_tags -> t ∈ map tag cur) ->
  merge_tags cur new_tags = cur.
Proof.
  induction new_tags as [|u rest IH]; intros cur Hall; [done|].
  rewrite merge_tags_cons.
  destruct (decide (u ∈ map tag cur)) as [_|Hout].
  - apply IH. intros t Ht. apply Hall. by right.
  - exfalso. apply Hout, Hall. by left.
Qed.

Lemma merge_tags_twice cur new_tags :
  merge_tags (merge_tags cur new_tags) new_tags = merge_tags cur new_tags.
Proof.
  apply merge_tags_present. intros t Ht. by apply merge_tags_covers.
Qed.

End Merge.

Section Update.

Lemma update_item_tags_items k new_tags st :
  cat_items (catalog (snd (update_item_tags k new_tags st)))
  = match cat_items (catalog st) !! k with
    | Some it =>
        match tags (data it), cat_items (catalog st) !! key it with
        | Some cur, Some c =>
            if decide (version c = version it) then
              <[key it := {| key := key it;
                             version := cat_version (catalog st) + 1;
                             data := data (written_item it cur new_tags) |}]>
                (cat_items (catalog st))
            else cat_items (catalog st)
        | _, _ => cat_items (catalog st)
        end
    | None => cat_items (catalog st)
    end.
Proof.
  unfold update_item_tags, zot_item, zot_update_item. run_monad. cbn.
  destruct (cat_items (catalog st) !! k) as [it|] eqn:Hk; cbn; [|done].
  destruct (tags (data it)) as [cur|] eqn:Hc; cbn; [|done].
  destruct (cat_items (catalog st) !! key it) as [c|] eqn:Hs; cbn; [|done].
  destruct (decide (version c = version it)); cbn; done.
Qed.

Lemma item_tags_update_twice k new_tags st :
  let st1 := snd (update_item_tags k new_tags st) in
  let st2 := snd (update_item_tags k new_tags st1) in
  item_tags st2 k = item_tags st1 k.
Proof.
  intros st1 st2. unfold item_tags.
  pose proof (update_item_tags_items k new_tags st) as H1.
  pose proof (update_item_tags_items k new_tags st1) as H2.
  fold st1 in H1. fold st2 in H2.
  generalize dependent (cat_items (catalog st2)). intros m2.
  generalize (cat_version (catalog st1)). intros v1.
  generalize dependent (cat_items (catalog st1)). intros m1.
  generalize (cat_version (catalog st)) (cat_items (catalog st)).
  clear st1 st2. intros v m H1 H2.
  destruct (m !! k) as [it|] eqn:Hk.
  2:{ subst m1. rewrite Hk in H2. by subst m2. }
  destruct (tags (data it)) as [cur|] eqn:Hc.
  2:{ subst m1. rewrite Hk, Hc in H2. by subst m2. }
  destruct (m !! key it) as [c|] eqn:Hs.
  2:{ subst m1. rewrite Hk, Hc, Hs in H2. by subst m2. }
  destruct (decide (version c = version it)) as [Hv|Hv].
  2:{ subst m1. rewrite Hk, Hc, Hs in H2. destruct (decide _); [done|].
      by subst m2. }
  subst m1. destruct (decide (key it = k)) as [Heq|Hne].
  - subst k. rewrite lookup_insert_eq in H2. cbn in H2.
    rewrite lookup_insert_eq in H2. destruct (decide _); [|done].
    subst m2. rewrite !lookup_insert_eq. cbn. by rewrite merge_tags_twice.
  - rewrite lookup_insert_ne in H2 by done. rewrite Hk, Hc in H2.
    rewrite lookup_insert_eq in H2. destruct (decide _); subst m2.
    + by rewrite !lookup_insert_ne.
    + done.
Qed.

Lemma update_item_tags_trace k new_tags st :
  trace (snd (update_item_tags k new_tags st))
  = trace st ++
    match cat_items (catalog st) !! k with
    | Some it =>
        match tags (data it) with
        | Some cur => [ZotItem k; ZotUpdateItem (written_item it cur new_tags)]
        | None => [ZotItem k]
        end
    | None => [ZotItem k]
    end.
Proof.
  unfold update_item_tags, zot_item, zot_update_item. run_monad. cbn.
  destruct (cat_items (catalog st) !! k) as [it|]; cbn; [|done].
  destruct (tags (data it)) as [cur|]; cbn; [|done].
  destruct (cat_items (catalog st) !! key it) as [c|]; cbn;
    [|by rewrite <- app_assoc].
  destruct (decide (version c = version it)); cbn; by rewrite <- app_assoc.
Qed.

(** The vocabulary and the file system are out of reach of
    [update_item_tags], whether the update succeeds or not. *)
Lemma update_item_tags_vocabulary k new_tags st :
  let out := update_item_tags k new_tags st in
  fst out = Ok tt
  /\ existing_tags (snd out) = existing_tags st
  /\ fs (snd out) = fs st
  /\ readonly (snd out) = readonly st.
Proof.
  unfold update_item_tags, zot_item, zot_update_item. run_monad. cbn.
  destruct (cat_items (catalog st) !! k) as [it|]; cbn; [|done].
  destruct (tags (data it)) as [cur|]; cbn; [|done].
  destruct (cat_items (catalog st) !! key it) as [c|]; cbn; [|done].
  by destruct (decide (version c = version it)).
Qed.

End Update.

Example case_sensitive_merge :
  merge_tags [new_entry "LLM"] ["llm"; "LLM"]
  = [new_entry "LLM"; new_entry "llm"].
Proof. reflexivity. Qed.

(** C3: applying [update_item_tags] a second time with the same suggested
    tags leaves the item's tag list as the first application left it; the
    merge appends nothing the second time, and a single suggested tag is
    appended exactly when no entry carries the same string. *)
Theorem update_item_tags_idempotent
  (k : string) (new_tags : list string) (st : State) :
  let st1 := snd (update_item_tags k new_tags st) in
  let st2 := snd (update_item_tags k new_tags st1) in
  item_tags st2 k = item_tags st1 k
  /\ (forall cur,
        merge_tags (merge_tags cur new_tags) new_tags = merge_tags cur new_tags)
  /\ (forall cur t,
        merge_tags cur [t]
        = if decide (t ∈ map tag cur) then cur else cur ++ [new_entry t]).
Proof.
  split; [apply item_tags_update_twice|]. split.
  - intros cur. apply merge_tags_twice.
  - reflexivity.
Qed.

(** C10: the item sent back by [update_item_tags] is the fetched item with
    only its tag list replaced: same key, same version, same other data
    fields; the tag list is the fetched one, entries and order untouched,
    followed by one new entry per suggested tag not yet present.  Nothing
    is sent back when the item or its tag list cannot be read. *)
Theorem update_item_tags_frame
  (k : string) (new_tags : list string) (st : State) :
  let st' := snd (update_item_tags k new_tags st) in
  match cat_items (catalog st) !! k with
  | Some it =>
      match tags (data it) with
      | Some cur =>
          let sent := written_item it cur new_tags in
          trace st' = trace st ++ [ZotItem k; ZotUpdateItem sent]
          /\ key sent = key it
          /\ version sent = version it
          /\ fields (data sent) = fields (data it)
          /\ tags (data sent)
             = Some (cur ++ map new_entry (fresh_tags (map tag cur) new_tags))
      | None => trace st' = trace st ++ [ZotItem k]
      end
  | None => trace st' = trace st ++ [ZotItem k]
  end.
Proof.
  intros st'. subst st'. rewrite update_item_tags_trace.
  destruct (cat_items (catalog st) !! k) as [it|]; [|done].
  destruct (tags (data it)) as [cur|]; [|done].
  cbn. by rewrite merge_tags_appends.
Qed.

(** ** Word-capped excerpts *)

Section Words.

Local Arguments Py.isspace : simpl never.

Lemma is_word_cons c r :
  is_word (String c r) = true ->
  Py.isspace c = false /\ (r = EmptyString \/ is_word r = true).
Proof.
  unfold is_word. cbn. intros [Hc Hr]%andb_prop.
  apply negb_true_iff in Hc. split; [done|].
  destruct r; [by left|right]. done.
Qed.

Lemma split_cons c r :
  Py.split (String c r)
  = if Py.isspace c then Py.split r
    else match r with
         | EmptyString => [String c EmptyString]
         | String c' _ =>
             if Py.isspace c' then String c EmptyString :: Py.split r
             else match Py.split r with
                  | t :: ts => String c t :: ts
                  | [] => [String c EmptyString]
                  end
         end.
Proof. reflexivity. Qed.

Lemma append_cons c r s : String c r +:+ s = String c (r +:+ s).
Proof. reflexivity. Qed.

Lemma split_words s : Forall (fun w => is_word w = true) (Py.split s).
Proof.
  induction s as [|c r IH]; [constructor|]. rewrite split_cons.
  destruct (Py.isspace c) eqn:Hc; [done|].
  assert (Hone : is_word (String c EmptyString) = true).
  { unfold is_word. cbn. by rewrite Hc. }
  destruct r as [|c' r']; [by repeat constructor|].
  destruct (Py.isspace c') eqn:Hc'; [by constructor|].
  destruct (Py.split (String c' r')) as [|t ts]; [by repeat constructor|].
  inversion IH as [|? ? Ht Hts]; subst. constructor; [|done].
  unfold is_word in *. cbn. rewrite Hc. cbn.
  by apply andb_prop in Ht as [_ ->].
Qed.

Lemma split_one_word w : is_word w = true -> Py.split w = [w].
Proof.
  induction w as [|c r IH]; [done|].
  intros [Hc Hr]%is_word_cons. rewrite split_cons, Hc.
  destruct Hr as [->|Hr]; [done|].
  destruct r as [|c' r']; [done|].
  destruct (is_word_cons _ _ Hr) as [-> _].
  by rewrite (IH Hr).
Qed.

Lemma split_word_space w s :
  is_word w = true ->
  Py.split (w +:+ String " " s) = w :: Py.split s.
Proof.
  induction w as [|c r IH]; [done|].
  intros [Hc Hr]%is_word_cons. rewrite append_cons, split_cons, Hc.
  destruct Hr as [->|Hr]; [done|].
  destruct r as [|c' r']; [done|].
  destruct (is_word_cons _ _ Hr) as [Hc' _].
  rewrite append_cons, Hc', <- append_cons. by rewrite (IH Hr).
Qed.

Lemma split_join ws :
  Forall (fun w => is_word w = true) ws ->
  Py.split (Py.join " " ws) = ws.
Proof.
  induction 1 as [|w ws Hw Hws IH]; [done|].
  destruct ws as [|w' ws'].
  - by apply split_one_word.
  - change (Py.join " " (w :: w' :: ws'))
      with (w +:+ String " " (Py.join " " (w' :: ws'))).
    by rewrite split_word_space, IH.
Qed.

(** The excerpt holds the first tokens of the text, in order, at most
    2000 of them. *)
Lemma truncate_words_tokens text :
  Py.split (truncate_words text) = take 2000%nat (Py.split text).
Proof.
  unfold truncate_words. apply split_join.
  apply Forall_take, split_words.
Qed.

End Words.

Section Extraction.
Context (E : Env) (options : ProcessingOptions).

Lemma extract_text_from_webpage_ok url has_pdf st content :
  should_fetch_url options has_pdf = true ->
  fetch_page E (trace st) url = Ok content ->
  extract_text_from_webpage E options url has_pdf st
  = (Ok (Some (truncate_words content)), add_event (HttpGetPage url) st).
Proof.
  unfold should_fetch_url, extract_text_from_webpage, requests_get_page.
  intros -> Hf. run_monad. cbn. by rewrite Hf.
Qed.

Lemma extract_text_from_pdf_ok pdf_url st pages text :
  parse_pdf options = true ->
  fetch_pdf E (trace st) pdf_url = Ok pages ->
  read_pages (take 5%nat pages) EmptyString = Ok text ->
  extract_text_from_pdf E options pdf_url st
  = (Ok (Some (truncate_words text)), add_event (HttpGetPdf pdf_url) st).
Proof.
  unfold extract_text_from_pdf, requests_get_pdf.
  intros -> Hf Hr. run_monad. cbn. by rewrite Hf, Hr.
Qed.

End Extraction.

(** C7: the excerpt returned by either extractor splits back into the first
    [min n 2000] whitespace-separated tokens of the extracted text, in
    their order, where [n] is the text's token count (so 5000 tokens give
    exactly 2000).  For a page the extracted text is the selected content;
    for a PDF it is the text of the first five pages, each followed by a
    line feed. *)
Theorem excerpt_is_first_2000_tokens (E : Env) (options : ProcessingOptions) :
  (forall text,
     let n := length (Py.split text) in
     Py.split (truncate_words text) = take (Nat.min n 2000) (Py.split text)
     /\ length (Py.split (truncate_words text)) = Nat.min n 2000)
  /\ (forall url has_pdf st content,
        url_always options || (url_fallback options && negb has_pdf) = true ->
        fetch_page E (trace st) url = Ok content ->
        fst (extract_text_from_webpage E options url has_pdf st)
        = Ok (Some (truncate_words content)))
  /\ (forall pdf_url st pages text,
        parse_pdf options = true ->
        fetch_pdf E (trace st) pdf_url = Ok pages ->
        read_pages (take 5%nat pages) EmptyString = Ok text ->
        fst (extract_text_from_pdf E options pdf_url st)
        = Ok (Some (truncate_words text))).
Proof.
  split; [|split].
  - intros text n. rewrite truncate_words_tokens, length_take. subst n.
    split; [|lia].
    destruct (decide (length (Py.split text) <= 2000)%nat) as [Hle|Hgt].
    + rewrite Nat.min_l by done. by rewrite !take_ge.
    + by rewrite Nat.min_r by lia.
  - intros url has_pdf st content Hc Hf.
    by rewrite (extract_text_from_webpage_ok E options url has_pdf st content).
  - intros pdf_url st pages text Hp Hf Hr.
    by rewrite (extract_text_from_pdf_ok E options pdf_url st pages text).
Qed.

Lemma excerpt_is_first_2000_tokens_witness :
  let E := demo_env two_tags in
  fst (extract_text_from_webpage E demo_options "https://example.org/a" false
                                 empty_state)
  = Ok (Some "Attention is all you need")
  /\ fst (extract_text_from_pdf E demo_options "https://example.org/a.pdf"
                                empty_state)
     = Ok (Some "Abstract The dominant models").
Proof.
  intros E.
  destruct (excerpt_is_first_2000_tokens E demo_options) as (_ & Hweb & Hpdf).
  split.
  - exact (Hweb "https://example.org/a" false empty_state _ eq_refl eq_refl).
  - exact (Hpdf "https://example.org/a.pdf" empty_state _ _
                eq_refl eq_refl eq_refl).
Defined.

(** ** The vocabulary file *)

Section TagsFile.

Local Arguments Py.isspace : simpl never.

Lemma length_lstrip s : (String.length (Py.lstrip s) <= String.length s)%nat.
Proof.
  induction s as [|c r IH]; [done|]. simpl.
  destruct (Py.isspace c); simpl; lia.
Qed.

Lemma length_rstrip s : (String.length (Py.rstrip s) <= String.length s)%nat.
Proof.
  induction s as [|c r IH]; [done|]. simpl.
  destruct (Py.rstrip r); [destruct (Py.isspace c)|]; simpl in *; lia.
Qed.

Lemma strip_fixed_head c r :
  Py.strip (String c r) = String c r -> Py.isspace c = false.
Proof.
  unfold Py.strip. simpl. destruct (Py.isspace c); [|done].
  intros Heq. apply (f_equal String.length) in Heq. simpl in Heq.
  pose proof (length_rstrip (Py.lstrip r)).
  pose proof (length_lstrip r). lia.
Qed.

Lemma rstrip_snoc_space s c :
  Py.isspace c = true ->
  Py.rstrip (s +:+ String c EmptyString) = Py.rstrip s.
Proof.
  intros Hc. induction s as [|a r IH]; simpl; [by rewrite Hc|].
  by rewrite IH.
Qed.

Lemma strip_line t :
  Py.truthy t = true -> Py.strip t = t -> Py.strip (t +:+ nl) = t.
Proof.
  destruct t as [|c r]; [done|]. intros _ Hfix.
  pose proof (strip_fixed_head c r Hfix) as Hc.
  unfold Py.strip in *. rewrite append_cons.
  change (Py.lstrip (String c (r +:+ nl)))
    with (if Py.isspace c then Py.lstrip (r +:+ nl) else String c (r +:+ nl)).
  change (Py.lstrip (String c r))
    with (if Py.isspace c then Py.lstrip r else String c r) in Hfix.
  rewrite Hc in *. rewrite <- append_cons.
  unfold nl. by rewrite rstrip_snoc_space.
Qed.

Lemma universal_newlines_id s :
  str_forall (not_char Py.CR) s = true -> Py.universal_newlines s = s.
Proof.
  induction s as [|c r IH]; [done|]. simpl.
  intros [Hc Hr]%andb_prop. unfold not_char in Hc.
  apply negb_true_iff in Hc. rewrite Hc. by rewrite IH.
Qed.

Lemma keepends_line t rest :
  str_forall (not_char Py.LF) t = true ->
  Py.keepends (t +:+ nl +:+ rest) = (t +:+ nl) :: Py.keepends rest.
Proof.
  induction t as [|c r IH]; [done|]. simpl.
  intros [Hc Hr]%andb_prop. unfold not_char in Hc.
  apply negb_true_iff in Hc. rewrite Hc. by rewrite IH.
Qed.

Lemma str_forall_app p a b :
  str_forall p (a +:+ b) = str_forall p a && str_forall p b.
Proof.
  induction a as [|c r IH]; [done|]. simpl. by rewrite IH, andb_assoc.
Qed.

Lemma str_forall_impl (p q : ascii -> bool) s :
  (forall c, p c = true -> q c = true) ->
  str_forall p s = true -> str_forall q s = true.
Proof.
  intros Hpq. induction s as [|c r IH]; [done|]. simpl.
  intros [Hc Hr]%andb_prop. by rewrite (Hpq c Hc), IH.
Qed.

Lemma no_line_break_LF t :
  no_line_break t = true -> str_forall (not_char Py.LF) t = true.
Proof. apply str_forall_impl. by intros c [-> _]%andb_prop. Qed.

Lemma no_line_break_CR t :
  no_line_break t = true -> str_forall (not_char Py.CR) t = true.
Proof. apply str_forall_impl. by intros c [_ ->]%andb_prop. Qed.

Lemma write_lines_no_CR ts :
  Forall (fun t => clean_tag t = true) ts ->
  str_forall (not_char Py.CR) (write_lines ts) = true.
Proof.
  induction 1 as [|t ts Ht Hts IH]; [done|]. cbn [write_lines].
  rewrite !str_forall_app, IH.
  unfold clean_tag in Ht. apply andb_prop in Ht as [_ Ht].
  by rewrite (no_line_break_CR t Ht).
Qed.

Lemma keepends_write_lines ts :
  Forall (fun t => clean_tag t = true) ts ->
  Py.keepends (write_lines ts) = map (fun t => t +:+ nl) ts.
Proof.
  induction 1 as [|t ts Ht Hts IH]; [done|]. cbn [write_lines map].
  unfold clean_tag in Ht. apply andb_prop in Ht as [_ Ht].
  by rewrite keepends_line, IH by by apply no_line_break_LF.
Qed.

Lemma stripped_nonempty_lines ts :
  Forall (fun t => clean_tag t = true) ts ->
  stripped_nonempty (map (fun t => t +:+ nl) ts) = ts.
Proof.
  unfold stripped_nonempty.
  induction 1 as [|t ts Ht Hts IH]; [done|]. cbn [map List.filter].
  unfold clean_tag in Ht.
  apply andb_prop in Ht as [[Hne Hfix]%andb_prop _].
  apply String.eqb_eq in Hfix.
  rewrite strip_line, Hne by done. by rewrite IH.
Qed.

(** Reading back what [write_lines] wrote. *)
Lemma read_write_lines ts :
  Forall (fun t => clean_tag t = true) ts ->
  stripped_nonempty (Py.file_lines (write_lines ts)) = ts.
Proof.
  intros Hts. unfold Py.file_lines.
  rewrite universal_newlines_id by by apply write_lines_no_CR.
  rewrite keepends_write_lines by done.
  by apply stripped_nonempty_lines.
Qed.

Lemma stripped_nonempty_blank ls1 l ls2 :
  Py.strip l = EmptyString ->
  stripped_nonempty (ls1 ++ l :: ls2) = stripped_nonempty (ls1 ++ ls2).
Proof.
  intros Hl. unfold stripped_nonempty.
  rewrite !map_app, !List.filter_app. simpl. by rewrite Hl.
Qed.

Lemma sorted_perm xs : Py.sorted xs ≡ₚ xs.
Proof. apply merge_sort_Permutation. Qed.

Lemma sorted_Sorted xs : Sorted String.le (Py.sorted xs).
Proof. apply (Sorted_merge_sort String.le). Qed.

End TagsFile.

Section Persistence.
Context (options : ProcessingOptions).

Lemma save_existing_tags_ok p st :
  tags_file options = Some p ->
  p ∉ readonly st ->
  fst (save_existing_tags options st) = Ok tt
  /\ fs (snd (save_existing_tags options st))
     = <[p := write_lines (Py.sorted (elements (existing_tags st)))]> (fs st)
  /\ existing_tags (snd (save_existing_tags options st)) = existing_tags st.
Proof.
  intros Hp Hw. unfold save_existing_tags. rewrite Hp. run_monad.
  by destruct (decide (p ∈ readonly st)).
Qed.

Lemma load_existing_tags_file p st content :
  tags_file options = Some p ->
  fs st !! p = Some content ->
  existing_tags (snd (load_existing_tags options st))
  = list_to_set (stripped_nonempty (Py.file_lines content)).
Proof.
  intros Hp Hc. unfold load_existing_tags. run_monad.
  by rewrite Hp, Hc.
Qed.

Lemma sorted_elements_clean (V : gset string) :
  (forall t, t ∈ V -> clean_tag t = true) ->
  Forall (fun t => clean_tag t = true) (Py.sorted (elements V)).
Proof.
  intros HV. apply Forall_forall. intros t Ht. apply HV.
  rewrite sorted_perm in Ht. by apply elem_of_elements in Ht.
Qed.

End Persistence.

(** C8 (as amended): a vocabulary whose tags are non-empty, equal to their
    own [strip()] and free of line feeds and carriage returns survives
    [save_existing_tags] followed by [load_existing_tags] in a run that
    finds the written file; the file holds the tags in ascending order, one
    per line, and a line that strips to nothing does not count on read. *)
Theorem vocabulary_round_trip
  (options : ProcessingOptions) (p : string) (st : State) :
  tags_file options = Some p ->
  p ∉ readonly st ->
  (forall t, t ∈ existing_tags st -> clean_tag t = true) ->
  let lines := Py.sorted (elements (existing_tags st)) in
  fs (snd (save_existing_tags options st)) !! p = Some (write_lines lines)
  /\ Sorted String.le lines
  /\ lines ≡ₚ elements (existing_tags st)
  /\ Py.file_lines (write_lines lines) = map (fun t => t +:+ nl) lines
  /\ (forall st', fs st' !! p = Some (write_lines lines) ->
        existing_tags (snd (load_existing_tags options st'))
        = existing_tags st)
  /\ (forall ls1 l ls2, Py.strip l = EmptyString ->
        stripped_nonempty (ls1 ++ l :: ls2) = stripped_nonempty (ls1 ++ ls2)).
Proof.
  intros Hp Hw HV lines.
  pose proof (sorted_elements_clean _ HV) as Hclean. fold lines in Hclean.
  destruct (save_existing_tags_ok options p st Hp Hw) as (_ & Hfs & _).
  repeat split.
  - rewrite Hfs. apply lookup_insert_eq.
  - apply sorted_Sorted.
  - apply sorted_perm.
  - unfold Py.file_lines.
    rewrite universal_newlines_id by by apply write_lines_no_CR.
    by apply keepends_write_lines.
  - intros st' Hst'.
    rewrite (load_existing_tags_file options p st' _ Hp Hst').
    rewrite read_write_lines by done. subst lines.
    rewrite sorted_perm. apply list_to_set_elements_L.
  - apply stripped_nonempty_blank.
Qed.

Lemma vocabulary_round_trip_witness :
  let lines := Py.sorted (elements (existing_tags demo_vocabulary_state)) in
  fs (snd (save_existing_tags demo_options demo_vocabulary_state)) !! "tags.txt"
  = Some (write_lines lines)
  /\ existing_tags
       (snd (load_existing_tags demo_options
               (snd (save_existing_tags demo_options demo_vocabulary_state))))
     = existing_tags demo_vocabulary_state.
Proof.
  intros lines.
  destruct (vocabulary_round_trip demo_options "tags.txt" demo_vocabulary_state)
    as (Hfile & _ & _ & _ & Hload & _).
  - reflexivity.
  - vm_compute. intros H. inversion H.
  - intros t Ht.
    change (t ∈ ({[ "Transformers" ]} ∪ {[ "Attention Mechanisms" ]}
                 : gset string)) in Ht.
    apply elem_of_union in Ht as [Ht|Ht]; apply elem_of_singleton in Ht;
      subst t; reflexivity.
  - split; [exact Hfile|]. apply Hload. exact Hfile.
Defined.

(** C8 (as stated) fails: the language model answering with [a], CR, [b]
    makes that one tag part of the vocabulary of the run, which writes it to
    the tags file; the tag is non-empty, equal to its own [strip()] and has
    no line feed inside, yet the next run reads two tags, [a] and [b]. *)
Lemma round_trip_fails_on_carriage_return :
  let out :=
    get_claude_suggestions (demo_env (Ok [TextBlock cr_tag])) demo_options
                           title_only_metadata empty_state in
  let reloaded :=
    existing_tags
      (snd (load_existing_tags demo_options
              (set_existing_tags ∅ (snd out)))) in
  fst out = Ok [cr_tag]
  /\ existing_tags (snd out) = {[ cr_tag ]}
  /\ fs (snd out) !! "tags.txt" = Some (write_lines [cr_tag])
  /\ Py.truthy cr_tag = true
  /\ Py.strip cr_tag = cr_tag
  /\ str_forall (not_char Py.LF) cr_tag = true
  /\ reloaded = {[ "a"; "b" ]}
  /\ reloaded <> existing_tags (snd out).
Proof.
  cbv zeta. repeat apply conj; try (vm_compute; reflexivity).
  intros H. vm_compute in H. discriminate H.
Qed.

(** ** Collecting the content of an item *)

Lemma suggested_in_app l1 l2 :
  suggested_in (l1 ++ l2) = suggested_in l1 ++ suggested_in l2.
Proof.
  induction l1 as [|[lv m] l1 IH]; [done|]. cbn.
  destruct m; rewrite IH; [done| |done]. by rewrite app_assoc.
Qed.

Lemma only_io_refl st : only_io st st.
Proof. by repeat split. Qed.

Lemma only_io_after_event e st st' :
  only_io st st' -> only_io st (add_event e st').
Proof. intros (?&?&?&?&?). by repeat split. Qed.

Lemma only_io_after_text lv s st st' :
  only_io st st' -> only_io st (add_log lv (MsgText s) st').
Proof.
  intros (?&?&?&?&?). repeat split; try done. cbn.
  rewrite suggested_in_app. cbn. by rewrite app_nil_r.
Qed.

Create HintDb tagger_io.
#[local] Hint Resolve only_io_refl only_io_after_event only_io_after_text
  : tagger_io.

Section Frames.
Context (E : Env) (options : ProcessingOptions).

Lemma only_io_trans st1 st2 st3 :
  only_io st1 st2 -> only_io st2 st3 -> only_io st1 st3.
Proof.
  intros (?&?&?&?&?) (?&?&?&?&?). repeat split; congruence.
Qed.

Lemma extract_text_from_webpage_returns url has_pdf st :
  exists r st', extract_text_from_webpage E options url has_pdf st = (Ok r, st')
                /\ only_io st st'.
Proof.
  unfold extract_text_from_webpage, requests_get_page. run_monad.
  destruct (negb _); [eauto with tagger_io|]. cbn.
  destruct (fetch_page E (trace st) url); cbn; do 2 eexists;
    (split; [done|auto with tagger_io]).
Qed.

Lemma extract_text_from_pdf_returns pdf_url st :
  exists r st', extract_text_from_pdf E options pdf_url st = (Ok r, st')
                /\ only_io st st'.
Proof.
  unfold extract_text_from_pdf, requests_get_pdf. run_monad.
  destruct (negb _); [eauto with tagger_io|]. cbn.
  destruct (fetch_pdf E (trace st) pdf_url) as [pages|e]; cbn;
    [destruct (read_pages (take 5%nat pages) EmptyString); cbn|];
    do 2 eexists; (split; [done|auto with tagger_io]).
Qed.

(** [content_parts] holds, in this order, the title, the abstract, the
    webpage excerpt and the PDF excerpt that are available. *)
Lemma collect_content_parts_returns metadata st :
  exists web pdf st',
    collect_content_parts E options metadata st
    = (Ok (assemble (md_title metadata) (md_abstract metadata) web pdf), st')
    /\ only_io st st'.
Proof.
  unfold collect_content_parts, assemble. run_monad.
  set (parts1 := append_part (append_part [] _ _) _ _).
  set (has_pdf := opt_truthy (md_pdf_attachment metadata)).
  destruct (Py.truthy (md_url metadata)).
  - destruct (extract_text_from_webpage_returns
                (md_url metadata) has_pdf st) as (web & st1 & -> & Hio1).
    destruct (has_pdf && parse_pdf options).
    + destruct (extract_text_from_pdf_returns
                  (default EmptyString (md_pdf_attachment metadata)) st1)
        as (pdf & st2 & -> & Hio2).
      exists web, pdf, st2. split; [done|]. by eapply only_io_trans.
    + by exists web, None, st1.
  - destruct (has_pdf && parse_pdf options).
    + destruct (extract_text_from_pdf_returns
                  (default EmptyString (md_pdf_attachment metadata)) st)
        as (pdf & st2 & -> & Hio2).
      by exists None, pdf, st2.
    + exists None, None, st. split; [done|]. apply only_io_refl.
Qed.

End Frames.

(** ** Suggestions *)

Section Suggestions.
Context (E : Env) (options : ProcessingOptions).

Lemma request_suggestions_spec prompt st :
  let st2 := add_event (LlmCreate prompt) st in
  request_suggestions E options prompt st
  = match llm_text E st prompt with
    | Raise e => (Raise e, st2)
    | Ok text =>
        let tags := parse_tags text in
        let st3 :=
          set_existing_tags (existing_tags st ∪ list_to_set tags) st2 in
        match tags_file options with
        | Some p =>
            if decide (p ∈ readonly st) then (Raise (permission_error p), st3)
            else
              (Ok tags,
               add_log INFO
                 (MsgText ("Saved " +:+ pretty (size (existing_tags st3))
                           +:+ " tags to " +:+ p))
                 (set_fs (<[p := write_lines
                                   (Py.sorted (elements (existing_tags st3)))]>
                            (fs st)) st3))
        | None => (Ok tags, st3)
        end
    end.
Proof.
  unfold request_suggestions, anthropic_messages_create, llm_text,
    save_existing_tags. run_monad. cbn.
  destruct (llm_create E (trace st) prompt) as [content|e]; cbn; [|done].
  destruct (first_block_text content) as [text|e]; cbn; [|done].
  destruct (tags_file options) as [p|]; cbn; [|done].
  by destruct (decide (p ∈ readonly st)).
Qed.

(** Every call returns a list.  Either the [try] block raised: the list is
    empty, the file system is as before and the last log record is the
    error; or it completed: every returned tag is in the vocabulary, and
    the tags file, when configured, holds the whole vocabulary. *)
Lemma get_claude_suggestions_step metadata st :
  exists suggested st',
    get_claude_suggestions E options metadata st = (Ok suggested, st')
    /\ existing_tags st ⊆ existing_tags st'
    /\ readonly st' = readonly st
    /\ catalog st' = catalog st
    /\ suggested_in (log st') = suggested_in (log st)
    /\ ((suggested = [] /\ fs st' = fs st
         /\ exists e l, log st' = l ++ [(ERROR, suggestion_error e)])
        \/ ((forall t, t ∈ suggested -> t ∈ existing_tags st')
            /\ match tags_file options with
               | Some p =>
                   fs st' !! p
                   = Some (write_lines
                             (Py.sorted (elements (existing_tags st'))))
               | None => fs st' = fs st
               end)).
Proof.
  unfold get_claude_suggestions. run_monad.
  destruct (collect_content_parts_returns E options metadata st)
    as (web & pdf & st1 & -> & (Hv & Hfs & Hro & Hcat & Hlog)).
  rewrite request_suggestions_spec.
  destruct (llm_text E st1 _) as [text|e]; cbn.
  - destruct (tags_file options) as [p|] eqn:Hp; cbn.
    + destruct (decide (p ∈ readonly st1)); cbn.
      * do 2 eexists. split; [done|]. cbn.
        rewrite suggested_in_app, app_nil_r, Hv.
        repeat split; try done; [apply union_subseteq_l|]. left. eauto.
      * do 2 eexists. split; [done|]. cbn.
        rewrite suggested_in_app, app_nil_r, Hv.
        repeat split; try done; [apply union_subseteq_l|]. right. split.
        -- intros t Ht. apply elem_of_union. right.
           by apply elem_of_list_to_set.
        -- apply lookup_insert_eq.
    + do 2 eexists. split; [done|]. cbn. rewrite Hv.
      repeat split; try done; [apply union_subseteq_l|]. right. split; [|done].
      intros t Ht. apply elem_of_union. right.
      by apply elem_of_list_to_set.
  - do 2 eexists. split; [done|]. cbn.
    rewrite suggested_in_app, app_nil_r, Hv.
    repeat split; try done. left. eauto.
Qed.

End Suggestions.

(** ** A run of [process_library] *)

Section Run.
Context (E : Env) (options : ProcessingOptions).

Lemma persisted_only_io st st' :
  only_io st st' -> persisted options st -> persisted options st'.
Proof.
  intros (Hv & Hfs & _ & _ & Hlog) Hper t Ht. rewrite Hlog in Ht.
  destruct (Hper t Ht) as [Hin Hfile]. rewrite Hv. split; [done|].
  unfold on_file in *. by rewrite Hfs.
Qed.

Lemma get_document_metadata_returns item st :
  exists metadata st',
    get_document_metadata item st = (Ok metadata, st') /\ only_io st st'.
Proof.
  unfold get_document_metadata, zot_children. run_monad. cbn.
  destruct (cat_children (catalog st) !! _) as [atts|]; cbn.
  - destruct (find_pdf atts); cbn; do 2 eexists;
      (split; [done|auto with tagger_io]).
  - do 2 eexists. split; [done|auto with tagger_io].
Qed.

Lemma update_item_tags_only_io k new_tags st :
  exists st', update_item_tags k new_tags st = (Ok tt, st')
              /\ existing_tags st' = existing_tags st
              /\ fs st' = fs st
              /\ readonly st' = readonly st
              /\ suggested_in (log st') = suggested_in (log st).
Proof.
  unfold update_item_tags, zot_item, zot_update_item. run_monad. cbn.
  destruct (cat_items (catalog st) !! k) as [it|]; cbn.
  2:{ eexists. split; [done|]. cbn. by rewrite suggested_in_app, app_nil_r. }
  destruct (tags (data it)) as [cur|]; cbn.
  2:{ eexists. split; [done|]. cbn. by rewrite suggested_in_app, app_nil_r. }
  destruct (cat_items (catalog st) !! key it) as [c|]; cbn.
  2:{ eexists. split; [done|]. cbn. by rewrite suggested_in_app, app_nil_r. }
  destruct (decide (version c = version it)); cbn; eexists; (split; [done|]);
    cbn; by rewrite ?suggested_in_app, ?app_nil_r.
Qed.

Lemma process_item_persisted total i item st :
  persisted options st ->
  fst (process_item E options total i item st) = Ok tt
  /\ persisted options (snd (process_item E options total i item st)).
Proof.
  intros Hper. unfold process_item. run_monad.
  destruct (get_document_metadata_returns item st)
    as (metadata & st1 & -> & Hio1).
  pose proof (persisted_only_io _ _ Hio1 Hper) as Hper1. cbn.
  set (st1a := add_log INFO _ (add_log INFO _ st1)).
  assert (Hper1a : persisted options st1a).
  { eapply persisted_only_io; [|exact Hper1]. unfold st1a. auto with tagger_io. }
  clearbody st1a.
  destruct (Py.truthy (md_title metadata)); cbn.
  2:{ split; [done|]. eapply persisted_only_io; [|exact Hper1a].
      auto with tagger_io. }
  destruct (get_claude_suggestions_step E options metadata st1a)
    as (suggested & st2 & -> & Hsub & Hro & Hcat & Hlog & Hcase).
  destruct suggested as [|s0 rest]; cbn.
  - split; [done|]. intros t Ht. cbn in Ht.
    rewrite suggested_in_app, app_nil_r, Hlog in Ht.
    destruct (Hper1a t Ht) as [Hin Hfile]. split; [by apply Hsub|].
    unfold on_file in *. cbn.
    destruct Hcase as [(_ & Hfs & _)|[_ Hfs]].
    + by rewrite Hfs.
    + destruct (tags_file options) as [p|]; [|done].
      eexists. split; [exact Hfs|]. by apply Hsub.
  - destruct Hcase as [(Hnil & _)|[Hall Hfs]]; [done|].
    set (st3 := add_log INFO (MsgExisting _) (add_log INFO (MsgSuggested _) st2)).
    destruct (update_item_tags_only_io (md_key metadata) (s0 :: rest) st3)
      as (st4 & -> & Hv4 & Hfs4 & _ & Hlog4). cbn.
    split; [done|]. intros t Ht. cbn in Ht.
    rewrite suggested_in_app, app_nil_r, Hlog4 in Ht. subst st3. cbn in Ht.
    rewrite !suggested_in_app in Ht. cbn in Ht.
    rewrite !app_nil_r, Hlog in Ht.
    cbn in Hv4, Hfs4. unfold on_file. cbn. rewrite Hv4, Hfs4.
    assert (Hin : t ∈ existing_tags st2).
    { apply elem_of_app in Ht as [Ht|Ht]; [|by apply Hall].
      apply Hsub. by apply Hper1a. }
    split; [done|].
    destruct (tags_file options) as [p|]; [|done].
    eexists. split; [exact Hfs|done].
Qed.

Lemma process_items_persisted total items : forall i st,
  persisted options st ->
  fst (process_items E options total i items st) = Ok tt
  /\ persisted options (snd (process_items E options total i items st)).
Proof.
  induction items as [|item rest IH]; intros i st Hper; [done|].
  cbn [process_items]. unfold bind.
  destruct (process_item_persisted total i item st Hper) as [Hok Hper'].
  destruct (process_item E options total i item st) as [r st'].
  cbn in Hok, Hper'. subst r. by apply IH.
Qed.

Lemma process_library_persisted limit st :
  persisted options st ->
  fst (process_library E options limit st) = Ok tt
  /\ persisted options (snd (process_library E options limit st)).
Proof.
  intros Hper. unfold process_library, zot_top. run_monad. cbn.
  apply process_items_persisted.
  eapply persisted_only_io; [|exact Hper]. auto with tagger_io.
Qed.

End Run.

Section Prompt.
Context (E : Env).

Lemma build_prompt_choice vocabulary title abstract web pdf :
  let shown := str_of_list E (Py.sorted (elements vocabulary)) in
  let parts := assemble title abstract web pdf in
  build_prompt E vocabulary title parts
  = if title_is_sole title abstract web pdf
    then title_only_prompt shown ("Title: " +:+ title)
    else multi_field_prompt shown parts.
Proof.
  unfold build_prompt, assemble, title_is_sole, append_part, opt_truthy.
  destruct title, abstract, web as [[|]|], pdf as [[|]|]; reflexivity.
Qed.

Lemma several_fields_not_sole title abstract web pdf :
  (2 <= count_available title abstract web pdf)%nat ->
  title_is_sole title abstract web pdf = false.
Proof.
  unfold count_available, title_is_sole.
  destruct (Py.truthy title), (Py.truthy abstract), (opt_truthy web),
    (opt_truthy pdf); cbn; intros; (done || lia).
Qed.

Lemma contains_unfold needle hay :
  contains needle hay
  = String.prefix needle hay
    || match hay with
       | EmptyString => false
       | String _ rest => contains needle rest
       end.
Proof. by destruct hay. Qed.

Lemma prefix_app needle rest : String.prefix needle (needle +:+ rest) = true.
Proof.
  induction needle as [|c r IH]; [by destruct rest|].
  rewrite append_cons. simpl.
  destruct (Ascii.ascii_dec c c); [apply IH|congruence].
Qed.

Lemma contains_here needle rest : contains needle (needle +:+ rest) = true.
Proof. by rewrite contains_unfold, prefix_app. Qed.

Lemma contains_skip needle pre hay :
  contains needle hay = true -> contains needle (pre +:+ hay) = true.
Proof.
  intros H. induction pre as [|c r IH]; [done|].
  rewrite append_cons, contains_unfold, IH. apply orb_true_r.
Qed.

Lemma title_only_prompt_conservative shown part :
  contains conservative_line (title_only_prompt shown part) = true.
Proof.
  unfold title_only_prompt, prompt_rules.
  repeat first [apply contains_here | apply contains_skip].
Qed.

Lemma prompts_differ shown part shown' parts :
  title_only_prompt shown part <> multi_field_prompt shown' parts.
Proof. unfold title_only_prompt, multi_field_prompt. cbn. discriminate. Qed.

End Prompt.

Section SuggestionTheorems.
Context (E : Env) (options : ProcessingOptions).

Lemma get_claude_suggestions_unfold metadata st parts st1 :
  collect_content_parts E options metadata st = (Ok parts, st1) ->
  get_claude_suggestions E options metadata st
  = try_except
      (request_suggestions E options
         (build_prompt E (existing_tags st1) (md_title metadata) parts))
      (fun e => logger ERROR (suggestion_error e) ;; ret []) st1.
Proof.
  intros Hc. unfold get_claude_suggestions. run_monad. by rewrite Hc.
Qed.

Lemma get_claude_suggestions_trace metadata st parts st1 :
  collect_content_parts E options metadata st = (Ok parts, st1) ->
  trace (snd (get_claude_suggestions E options metadata st))
  = trace st1
    ++ [LlmCreate
          (build_prompt E (existing_tags st1) (md_title metadata) parts)].
Proof.
  intros Hc. rewrite (get_claude_suggestions_unfold _ _ _ _ Hc).
  unfold try_except. rewrite request_suggestions_spec.
  destruct (llm_text E st1 _); [|done].
  destruct (tags_file options) as [p|]; [|done].
  by destruct (decide (p ∈ readonly st1)).
Qed.

Lemma get_claude_suggestions_caught metadata st parts st1 e :
  collect_content_parts E options metadata st = (Ok parts, st1) ->
  llm_text E st1
    (build_prompt E (existing_tags st1) (md_title metadata) parts)
  = Raise e ->
  get_claude_suggestions E options metadata st
  = (Ok [],
     add_log ERROR (suggestion_error e)
       (add_event
          (LlmCreate
             (build_prompt E (existing_tags st1) (md_title metadata) parts))
          st1)).
Proof.
  intros Hc Hl. rewrite (get_claude_suggestions_unfold _ _ _ _ Hc).
  unfold try_except. rewrite request_suggestions_spec, Hl. reflexivity.
Qed.

Lemma get_claude_suggestions_completes metadata st parts st1 text :
  collect_content_parts E options metadata st = (Ok parts, st1) ->
  llm_text E st1
    (build_prompt E (existing_tags st1) (md_title metadata) parts)
  = Ok text ->
  (forall p, tags_file options = Some p -> p ∉ readonly st1) ->
  exists st',
    get_claude_suggestions E options metadata st = (Ok (parse_tags text), st')
    /\ existing_tags st'
       = existing_tags st1 ∪ list_to_set (parse_tags text)
    /\ match tags_file options with
       | Some p =>
           fs st' !! p
           = Some (write_lines (Py.sorted (elements (existing_tags st'))))
       | None => fs st' = fs st1
       end.
Proof.
  intros Hc Hl Hw. rewrite (get_claude_suggestions_unfold _ _ _ _ Hc).
  unfold try_except. rewrite request_suggestions_spec, Hl. cbn.
  destruct (tags_file options) as [p|]; [|by eexists].
  destruct (decide (p ∈ readonly st1)) as [Hro|_]; [by destruct (Hw p)|].
  eexists. split; [done|]. split; [done|]. apply lookup_insert_eq.
Qed.

Lemma str_app_assoc (a b c : string) : (a +:+ b) +:+ c = a +:+ (b +:+ c).
Proof.
  induction a as [|x a IH]; [done|].
  change (String x ((a +:+ b) +:+ c) = String x (a +:+ (b +:+ c))).
  by rewrite IH.
Qed.

Lemma write_lines_app l1 l2 :
  write_lines (l1 ++ l2) = write_lines l1 +:+ write_lines l2.
Proof.
  induction l1 as [|t l1 IH]; [done|]. cbn [app write_lines].
  by rewrite IH, !str_app_assoc.
Qed.

(** A tag of the vocabulary is one of the lines written. *)
Lemma written_vocabulary_line (V : gset string) t :
  t ∈ V ->
  exists before after,
    write_lines (Py.sorted (elements V))
    = write_lines before +:+ (t +:+ nl) +:+ write_lines after.
Proof.
  intros Ht.
  assert (Hin : t ∈ Py.sorted (elements V)).
  { unfold Py.sorted. rewrite merge_sort_Permutation.
    by apply elem_of_elements. }
  apply list_elem_of_split in Hin as (before & after & ->).
  exists before, after. rewrite write_lines_app. cbn [write_lines].
  by rewrite !str_app_assoc.
Qed.

End SuggestionTheorems.

(** C6: [get_claude_suggestions] always returns a list, whatever the
    environment does; when the language-model call raises, or the response
    has no first block or a first block without text, the exception is
    logged at error level and the empty list is returned. *)
Theorem get_claude_suggestions_catches
  (E : Env) (options : ProcessingOptions) (metadata : Metadata) (st : State) :
  (exists suggested st',
     get_claude_suggestions E options metadata st = (Ok suggested, st'))
  /\ (forall parts st1 e,
        collect_content_parts E options metadata st = (Ok parts, st1) ->
        llm_text E st1
          (build_prompt E (existing_tags st1) (md_title metadata) parts)
        = Raise e ->
        get_claude_suggestions E options metadata st
        = (Ok [],
           add_log ERROR
             (MsgText ("Error getting Claude suggestions: " +:+ exn_str e))
             (add_event
                (LlmCreate
                   (build_prompt E (existing_tags st1) (md_title metadata)
                                 parts))
                st1))).
Proof.
  split.
  - destruct (get_claude_suggestions_step E options metadata st)
      as (suggested & st' & Heq & _). eauto.
  - apply get_claude_suggestions_caught.
Qed.

Lemma get_claude_suggestions_catches_witness :
  let E := demo_env (Raise (Exn "APIConnectionError" "Connection error.")) in
  let out := get_claude_suggestions E demo_options title_only_metadata
                                    empty_state in
  fst out = Ok []
  /\ log (snd out)
     = [(ERROR, MsgText "Error getting Claude suggestions: Connection error.")].
Proof.
  intros E out. subst out.
  destruct (get_claude_suggestions_catches E demo_options title_only_metadata
                                           empty_state) as [_ Hcaught].
  rewrite (Hcaught ["Title: Attention Is All You Need"] empty_state
             (Exn "APIConnectionError" "Connection error.")
             eq_refl eq_refl).
  split; reflexivity.
Defined.

(** C9: the prompt sent to the language model is the title-only template,
    the one with the line asking to be conservative, exactly when the title
    is available and the abstract, the webpage excerpt and the PDF excerpt
    are not; otherwise, in particular with two or more fields available, it
    is the multi-field template, which has the same rules and footer and
    no such line. *)
Theorem prompt_variant_choice
  (E : Env) (options : ProcessingOptions) (metadata : Metadata) (st : State) :
  exists web pdf st1,
    let title := md_title metadata in
    let abstract := md_abstract metadata in
    let parts := assemble title abstract web pdf in
    let shown := str_of_list E (Py.sorted (elements (existing_tags st1))) in
    collect_content_parts E options metadata st = (Ok parts, st1)
    /\ trace (snd (get_claude_suggestions E options metadata st))
       = trace st1
         ++ [LlmCreate
               (if title_is_sole title abstract web pdf
                then title_only_prompt shown ("Title: " +:+ title)
                else multi_field_prompt shown parts)]
    /\ title_is_sole title abstract web pdf
       = Py.truthy title
         && (count_available title abstract web pdf =? 1)%nat
    /\ contains conservative_line
         (title_only_prompt shown ("Title: " +:+ title)) = true
    /\ contains conservative_line (multi_field_prompt EmptyString []) = false
    /\ contains prompt_rules (multi_field_prompt shown parts) = true
    /\ contains prompt_rules
         (title_only_prompt shown ("Title: " +:+ title)) = true
    /\ title_only_prompt shown ("Title: " +:+ title)
       <> multi_field_prompt shown parts.
Proof.
  destruct (collect_content_parts_returns E options metadata st)
    as (web & pdf & st1 & Hc & _).
  exists web, pdf, st1. cbv zeta. split; [done|]. split.
  { rewrite (get_claude_suggestions_trace E options _ _ _ _ Hc).
    by rewrite build_prompt_choice. }
  split.
  { unfold title_is_sole, count_available.
    by destruct (Py.truthy _), (Py.truthy _), (opt_truthy web),
      (opt_truthy pdf). }
  split; [apply title_only_prompt_conservative|].
  split; [by vm_compute|].
  split.
  { unfold multi_field_prompt.
    repeat first [apply contains_here | apply contains_skip]. }
  split.
  { unfold title_only_prompt.
    repeat first [apply contains_here | apply contains_skip]. }
  apply prompts_differ.
Qed.

Example scenario_attention :
  let st := snd (process_library (demo_env two_tags) demo_options (Some 5)
                                 demo_catalog_state) in
  suggested_in (log st) = ["Transformers"; "Attention Mechanisms"]
  /\ existing_tags st = {[ "Transformers"; "Attention Mechanisms" ]}
  /\ fs st !! "tags.txt"
     = Some ("Attention Mechanisms" +:+ nl +:+ "Transformers" +:+ nl)
  /\ (map tag <$> item_tags st "K1")
     = Some ["Seminal"; "Transformers"; "Attention Mechanisms"].
Proof. cbv zeta. repeat apply conj; vm_compute; reflexivity. Qed.

(** C1: a call of [get_claude_suggestions] that completes its [try] block
    returns only tags that are in the vocabulary, and leaves the tags file,
    when one is configured, holding the whole updated vocabulary, each tag
    on a line of its own; a call that does not returns the empty list and
    leaves the file as it was.  The call completes whenever the language
    model answers with a text block and the tags file can be opened.
    [update_item_tags] touches neither the vocabulary nor the file, whether
    it succeeds or not.  Hence, after any number of items processed, every
    tag suggested so far is in the vocabulary and on the tags file. *)
Theorem suggested_tags_are_persisted (E : Env) (options : ProcessingOptions) :
  (forall metadata st,
     exists suggested st',
       get_claude_suggestions E options metadata st = (Ok suggested, st')
       /\ existing_tags st ⊆ existing_tags st'
       /\ ((suggested = [] /\ fs st' = fs st
            /\ exists e l, log st' = l ++ [(ERROR, suggestion_error e)])
           \/ ((forall t, t ∈ suggested -> t ∈ existing_tags st')
               /\ match tags_file options with
                  | Some p =>
                      fs st' !! p
                      = Some (write_lines
                                (Py.sorted (elements (existing_tags st'))))
                  | None => fs st' = fs st
                  end)))
  /\ (forall metadata st parts st1 text,
        collect_content_parts E options metadata st = (Ok parts, st1) ->
        llm_text E st1
          (build_prompt E (existing_tags st1) (md_title metadata) parts)
        = Ok text ->
        (forall p, tags_file options = Some p -> p ∉ readonly st1) ->
        exists st',
          get_claude_suggestions E options metadata st
          = (Ok (parse_tags text), st')
          /\ existing_tags st'
             = existing_tags st1 ∪ list_to_set (parse_tags text)
          /\ match tags_file options with
             | Some p =>
                 fs st' !! p
                 = Some (write_lines
                           (Py.sorted (elements (existing_tags st'))))
             | None => fs st' = fs st1
             end)
  /\ (forall (V : gset string) t,
        t ∈ V ->
        exists before after,
          write_lines (Py.sorted (elements V))
          = write_lines before +:+ (t +:+ nl) +:+ write_lines after)
  /\ (forall k new_tags st,
        exists st', update_item_tags k new_tags st = (Ok tt, st')
                    /\ existing_tags st' = existing_tags st
                    /\ fs st' = fs st)
  /\ (forall total i items st,
        persisted options st ->
        persisted options (snd (process_items E options total i items st)))
  /\ (forall limit st,
        persisted options st ->
        persisted options (snd (process_library E options limit st))).
Proof.
  repeat apply conj.
  - intros metadata st.
    destruct (get_claude_suggestions_step E options metadata st)
      as (suggested & st' & Heq & Hsub & _ & _ & _ & Hcase).
    by exists suggested, st'.
  - apply get_claude_suggestions_completes.
  - apply written_vocabulary_line.
  - intros k new_tags st.
    destruct (update_item_tags_only_io k new_tags st)
      as (st' & Heq & Hv & Hfs & _).
    by exists st'.
  - intros total i items st Hper.
    by apply process_items_persisted.
  - intros limit st Hper. by apply process_library_persisted.
Qed.

Lemma suggested_tags_are_persisted_witness :
  let st := snd (process_library (demo_env two_tags) demo_options (Some 5)
                                 demo_catalog_state) in
  persisted demo_options demo_catalog_state
  /\ persisted demo_options st
  /\ suggested_in (log st) = ["Transformers"; "Attention Mechanisms"].
Proof.
  intros st.
  assert (Hstart : persisted demo_options demo_catalog_state).
  { intros t Ht. by apply elem_of_nil in Ht. }
  destruct (suggested_tags_are_persisted (demo_env two_tags) demo_options)
    as (_ & _ & _ & _ & _ & Hrun).
  split; [exact Hstart|]. split; [exact (Hrun (Some 5) _ Hstart)|].
  vm_compute. reflexivity.
Defined.

(** ** Construction *)

Section Construction.
Context (options : ProcessingOptions).

Lemma missing_eq environ :
  missing environ
  = (if lacks_value environ "ZOTERO_LIBRARY_ID"
     then ["ZOTERO_LIBRARY_ID"] else [])
    ++ (if bool_decide (environ !! "ZOTERO_LIBRARY_TYPE" = Some EmptyString)
        then ["ZOTERO_LIBRARY_TYPE"] else [])
    ++ (if lacks_value environ "ZOTERO_API_KEY"
        then ["ZOTERO_API_KEY"] else [])
    ++ (if lacks_value environ "ANTHROPIC_API_KEY"
        then ["ANTHROPIC_API_KEY"] else []).
Proof.
  unfold missing, required_vars, lacks_value.
  destruct (environ !! "ZOTERO_LIBRARY_ID") as [[|]|];
    destruct (environ !! "ZOTERO_LIBRARY_TYPE") as [[|]|];
    destruct (environ !! "ZOTERO_API_KEY") as [[|]|];
    destruct (environ !! "ANTHROPIC_API_KEY") as [[|]|];
    reflexivity.
Qed.

Lemma elem_of_missing environ k :
  k ∈ missing environ
  <-> (k ∈ required_names /\ lacks_value environ k = true)
      \/ (k = "ZOTERO_LIBRARY_TYPE" /\ environ !! k = Some EmptyString).
Proof.
  rewrite missing_eq. unfold required_names.
  rewrite !elem_of_app, !elem_of_cons, elem_of_nil.
  destruct (lacks_value environ "ZOTERO_LIBRARY_ID") eqn:H1;
    destruct (lacks_value environ "ZOTERO_API_KEY") eqn:H3;
    destruct (lacks_value environ "ANTHROPIC_API_KEY") eqn:H4;
    case_bool_decide as H2;
    rewrite ?elem_of_cons, ?elem_of_nil;
    (split; intros H;
     [ repeat (destruct H as [H|H]); subst; try done; auto 10
     | destruct H as [[H Hl]|[-> Ht]];
       [ repeat (destruct H as [H|H]); subst; try done; try congruence;
         auto 10
       | try done; auto 10 ] ]).
Qed.

Lemma missing_sublist environ : missing environ `sublist_of` validated_names.
Proof.
  unfold missing, required_vars, validated_names. cbn.
  repeat match goal with
         | |- context [negb ?b] => destruct b; cbn
         end;
    repeat first [ apply sublist_nil_l | apply sublist_skip; [] | by apply sublist_cons
                 | apply sublist_skip | apply sublist_cons ].
Qed.

Lemma init_raises environ st :
  missing environ <> [] ->
  ZoteroTagger_init options environ st
  = (Raise (Exn "ValueError" (missing_message (missing environ))), st).
Proof.
  unfold ZoteroTagger_init. by destruct (missing environ).
Qed.

End Construction.

(** C5 (as amended): when a required variable is unset or empty,
    construction raises [ValueError] and nothing else happens, so no
    catalog call is made; the message lists, all at once and in declaration
    order, exactly the validated variables without a non-empty value: a
    required one when unset or empty, and [ZOTERO_LIBRARY_TYPE] when set to
    the empty string. *)
Theorem init_reports_missing
  (options : ProcessingOptions) (environ : gmap string string) (st : State) :
  (exists k, k ∈ required_names /\ lacks_value environ k = true) ->
  ZoteroTagger_init options environ st
  = (Raise (Exn "ValueError"
              ("Missing environment variables: "
               +:+ Py.join ", " (missing environ))), st)
  /\ (forall k,
        k ∈ missing environ
        <-> (k ∈ required_names /\ lacks_value environ k = true)
            \/ (k = "ZOTERO_LIBRARY_TYPE" /\ environ !! k = Some EmptyString))
  /\ missing environ `sublist_of` validated_names.
Proof.
  intros (k & Hk & Hlack). split; [|split].
  - apply init_raises. intros Hnil.
    assert (Hin : k ∈ missing environ) by (apply elem_of_missing; auto).
    rewrite Hnil in Hin. by apply elem_of_nil in Hin.
  - apply elem_of_missing.
  - apply missing_sublist.
Qed.

Lemma init_reports_missing_witness :
  ZoteroTagger_init demo_options demo_environ empty_state
  = (Raise (Exn "ValueError"
              "Missing environment variables: ZOTERO_LIBRARY_TYPE, ANTHROPIC_API_KEY"),
     empty_state).
Proof.
  refine (proj1 (init_reports_missing demo_options demo_environ empty_state _)).
  exists "ANTHROPIC_API_KEY". split; [|reflexivity].
  unfold required_names. do 2 apply list_elem_of_further. apply list_elem_of_here.
Defined.

(** C5 (as stated) fails: with [ANTHROPIC_API_KEY] unset and
    [ZOTERO_LIBRARY_TYPE] set to the empty string, the only required value
    that is absent is [ANTHROPIC_API_KEY], yet the message also names
    [ZOTERO_LIBRARY_TYPE]. *)
Lemma init_names_library_type :
  let out := ZoteroTagger_init demo_options demo_environ empty_state in
  absent_required demo_environ = ["ANTHROPIC_API_KEY"]
  /\ demo_environ !! "ZOTERO_LIBRARY_TYPE" = Some EmptyString
  /\ fst out
     = Raise (Exn "ValueError"
                "Missing environment variables: ZOTERO_LIBRARY_TYPE, ANTHROPIC_API_KEY")
  /\ fst out
     <> Raise (Exn "ValueError"
                 (missing_message (absent_required demo_environ))).
Proof.
  cbv zeta. repeat apply conj; try (vm_compute; reflexivity).
  intros H. vm_compute in H. discriminate H.
Qed.

(** * Further properties *)

(** ** The external calls of each operation *)

Section Traces.
Context (E : Env) (options : ProcessingOptions).

Lemma count_events_app p tr1 tr2 :
  count_events p (tr1 ++ tr2) = (count_events p tr1 + count_events p tr2)%nat.
Proof. unfold count_events. by rewrite List.filter_app, length_app. Qed.

Lemma count_events_none p tr :
  Forall (fun e => p e = false) tr -> count_events p tr = 0%nat.
Proof.
  unfold count_events. induction 1 as [|e tr He _ IH]; [done|].
  cbn. by rewrite He.
Qed.

Lemma extract_text_from_pdf_calls pdf_url st :
  exists r st',
    extract_text_from_pdf E options pdf_url st = (Ok r, st')
    /\ trace st'
       = trace st ++ (if parse_pdf options then [HttpGetPdf pdf_url] else []).
Proof.
  unfold extract_text_from_pdf, requests_get_pdf. run_monad.
  destruct (parse_pdf options); cbn; [|do 2 eexists; by rewrite app_nil_r].
  destruct (fetch_pdf E (trace st) pdf_url) as [pages|e]; cbn;
    [destruct (read_pages (take 5%nat pages) EmptyString); cbn|];
    by do 2 eexists.
Qed.

(** Collecting the content of an item makes HTTP requests only: at most
    one for the page, then at most one for the PDF. *)
Lemma collect_content_parts_calls metadata st :
  exists parts st',
    collect_content_parts E options metadata st = (Ok parts, st')
    /\ trace st'
       = trace st
         ++ (if Py.truthy (md_url metadata)
                && should_fetch_url options
                     (opt_truthy (md_pdf_attachment metadata))
             then [HttpGetPage (md_url metadata)] else [])
         ++ (if opt_truthy (md_pdf_attachment metadata) && parse_pdf options
             then [HttpGetPdf (default EmptyString (md_pdf_attachment metadata))]
             else []).
Proof.
  unfold collect_content_parts. run_monad.
  set (has_pdf := opt_truthy (md_pdf_attachment metadata)).
  destruct (Py.truthy (md_url metadata)); cbn.
  - destruct (extract_text_from_webpage_trace E options
                (md_url metadata) has_pdf st) as (web & st1 & -> & Htr).
    destruct (has_pdf && parse_pdf options) eqn:Hp.
    + destruct (extract_text_from_pdf_calls
                  (default EmptyString (md_pdf_attachment metadata)) st1)
        as (pdf & st2 & -> & Htr2).
      apply andb_prop in Hp as [_ Hp]. rewrite Hp in Htr2.
      do 2 eexists. split; [done|]. cbn. by rewrite Htr2, Htr, <- app_assoc.
    + do 2 eexists. split; [done|]. by rewrite Htr, app_nil_r.
  - destruct (has_pdf && parse_pdf options) eqn:Hp.
    + destruct (extract_text_from_pdf_calls
                  (default EmptyString (md_pdf_attachment metadata)) st)
        as (pdf & st2 & -> & Htr2).
      apply andb_prop in Hp as [_ Hp]. rewrite Hp in Htr2.
      do 2 eexists. split; [done|]. by rewrite Htr2.
    + do 2 eexists. split; [done|]. by rewrite app_nil_r.
Qed.

Lemma collect_content_parts_http metadata st :
  exists parts st' new,
    collect_content_parts E options metadata st = (Ok parts, st')
    /\ trace st' = trace st ++ new
    /\ Forall (fun e => is_http e = true) new.
Proof.
  destruct (collect_content_parts_calls metadata st)
    as (parts & st' & Heq & Htr).
  do 3 eexists. split; [exact Heq|]. split; [exact Htr|].
  apply Forall_app. split.
  - destruct (Py.truthy _ && _); [by apply Forall_singleton|constructor].
  - destruct (opt_truthy _ && _); [by apply Forall_singleton|constructor].
Qed.

(** One call of [get_claude_suggestions]: HTTP requests, then exactly one
    call of the language model. *)
Lemma get_claude_suggestions_calls metadata st :
  exists suggested st' new prompt,
    get_claude_suggestions E options metadata st = (Ok suggested, st')
    /\ trace st' = trace st ++ new ++ [LlmCreate prompt]
    /\ Forall (fun e => is_http e = true) new.
Proof.
  destruct (collect_content_parts_http metadata st)
    as (parts & st1 & new & Hc & Htr & Hnew).
  destruct (get_claude_suggestions_step E options metadata st)
    as (suggested & st' & Heq & _).
  pose proof (get_claude_suggestions_trace E options _ _ _ _ Hc) as Ht.
  rewrite Heq in Ht. cbn in Ht.
  do 4 eexists. split; [exact Heq|]. split; [|exact Hnew].
  by rewrite Ht, Htr, <- app_assoc.
Qed.

Lemma get_document_metadata_calls item st :
  exists metadata st',
    get_document_metadata item st = (Ok metadata, st')
    /\ trace st' = trace st ++ [ZotChildren (field (data item) "key")]
    /\ md_title metadata = field (data item) "title"
    /\ md_key metadata = field (data item) "key"
    /\ only_io st st'.
Proof.
  unfold get_document_metadata, zot_children. run_monad. cbn.
  destruct (cat_children (catalog st) !! _) as [atts|]; cbn.
  - destruct (find_pdf atts); cbn; do 2 eexists;
      (split; [done|]); (split; [done|]); (split; [done|]); (split; [done|]);
      auto with tagger_io.
  - do 2 eexists. do 4 (split; [done|]). auto with tagger_io.
Qed.

End Traces.

(** ** Tags as they are parsed and read *)

Section Stripping.

Local Arguments Py.isspace : simpl never.

Lemma lstrip_head s :
  Py.lstrip s = EmptyString
  \/ exists c r, Py.lstrip s = String c r /\ Py.isspace c = false.
Proof.
  induction s as [|c r IH]; [by left|]. simpl.
  destruct (Py.isspace c) eqn:Hc; [done|]. right. by exists c, r.
Qed.

Lemma rstrip_cons c r :
  Py.rstrip (String c r)
  = match Py.rstrip r with
    | EmptyString =>
        if Py.isspace c then EmptyString else String c EmptyString
    | String a b => String c (String a b)
    end.
Proof. reflexivity. Qed.

Lemma rstrip_idem s : Py.rstrip (Py.rstrip s) = Py.rstrip s.
Proof.
  induction s as [|c r IH]; [done|]. rewrite rstrip_cons.
  destruct (Py.rstrip r) as [|a b] eqn:Hr.
  - destruct (Py.isspace c) eqn:Hc; [done|].
    rewrite rstrip_cons. simpl. by rewrite Hc.
  - by rewrite rstrip_cons, IH.
Qed.

Lemma rstrip_keeps_head c r :
  Py.isspace c = false -> exists r', Py.rstrip (String c r) = String c r'.
Proof.
  intros Hc. rewrite rstrip_cons.
  destruct (Py.rstrip r); rewrite ?Hc; eauto.
Qed.

Lemma lstrip_cons c r :
  Py.lstrip (String c r) = if Py.isspace c then Py.lstrip r else String c r.
Proof. reflexivity. Qed.

(** [strip] is idempotent. *)
Lemma strip_idem s : Py.strip (Py.strip s) = Py.strip s.
Proof.
  unfold Py.strip.
  destruct (lstrip_head s) as [->|(c & r & -> & Hc)]; [done|].
  destruct (rstrip_keeps_head c r Hc) as (r' & Hr).
  rewrite Hr, lstrip_cons, Hc, <- Hr. apply rstrip_idem.
Qed.

Lemma str_forall_lstrip p s :
  str_forall p s = true -> str_forall p (Py.lstrip s) = true.
Proof.
  induction s as [|c r IH]; [done|]. rewrite lstrip_cons.
  intros H. destruct (Py.isspace c); [|done].
  apply IH. simpl in H. by apply andb_prop in H as [_ H].
Qed.

Lemma str_forall_rstrip p s :
  str_forall p s = true -> str_forall p (Py.rstrip s) = true.
Proof.
  induction s as [|c r IH]; [done|]. rewrite rstrip_cons.
  simpl. intros [Hc Hr]%andb_prop. specialize (IH Hr).
  destruct (Py.rstrip r) as [|a b].
  - destruct (Py.isspace c); [done|]. simpl. by rewrite Hc.
  - change (str_forall p (String c (String a b)))
      with (p c && str_forall p (String a b)). by rewrite Hc, IH.
Qed.

Lemma str_forall_strip p s :
  str_forall p s = true -> str_forall p (Py.strip s) = true.
Proof. intros H. by apply str_forall_rstrip, str_forall_lstrip. Qed.

(** A trailing whitespace character does not change [strip()]. *)
Lemma strip_snoc_space s c :
  Py.isspace c = true -> Py.strip (s +:+ String c EmptyString) = Py.strip s.
Proof.
  intros Hc. unfold Py.strip. induction s as [|a r IH].
  - simpl. by rewrite Hc.
  - rewrite append_cons, !lstrip_cons.
    destruct (Py.isspace a); [exact IH|].
    rewrite <- append_cons. by apply rstrip_snoc_space.
Qed.

Lemma split_on_fields sep s :
  Forall (fun f => str_forall (not_char sep) f = true) (Py.split_on sep s).
Proof.
  induction s as [|c r IH]; [by repeat constructor|]. simpl.
  destruct (Ascii.eqb c sep) eqn:Hc; [by constructor|].
  destruct (Py.split_on sep r) as [|t ts]; [repeat constructor|].
  - simpl. unfold not_char. by rewrite Hc.
  - inversion IH as [|? ? Ht Hts]; subst. constructor; [|done].
    simpl. unfold not_char at 1. by rewrite Hc.
Qed.

(** Every tag read off a response is non-empty, stripped and on one
    line. *)
Lemma parse_tags_stripped text :
  Forall (fun t => stripped_tag t = true) (parse_tags text).
Proof.
  unfold parse_tags, stripped_nonempty.
  apply Forall_forall. intros t Ht. apply list_elem_of_In in Ht.
  apply List.filter_In in Ht as [Hin Htruthy].
  apply List.in_map_iff in Hin as (f & <- & Hf).
  apply list_elem_of_In in Hf.
  pose proof (split_on_fields Py.LF text) as Hall.
  rewrite Forall_forall in Hall. specialize (Hall f Hf).
  unfold stripped_tag. rewrite Htruthy, strip_idem, String.eqb_refl.
  by rewrite str_forall_strip.
Qed.

Lemma universal_newlines_no_CR s :
  str_forall (not_char Py.CR) (Py.universal_newlines s) = true.
Proof.
  cut (str_forall (not_char Py.CR) (Py.universal_newlines s) = true
       /\ forall c, str_forall (not_char Py.CR)
                      (Py.universal_newlines (String c s)) = true).
  { by intros [H _]. }
  induction s as [|a r [IH1 IH2]].
  - split; [done|]. intros c. simpl.
    destruct (Ascii.eqb c Py.CR) eqn:Hc; [done|].
    simpl. unfold not_char. by rewrite Hc.
  - split; [apply IH2|]. intros c.
    change (Py.universal_newlines (String c (String a r)))
      with (if Ascii.eqb c Py.CR then
              if Ascii.eqb a Py.LF then String Py.LF (Py.universal_newlines r)
              else String Py.LF (Py.universal_newlines (String a r))
            else String c (Py.universal_newlines (String a r))).
    destruct (Ascii.eqb c Py.CR) eqn:Hc.
    + destruct (Ascii.eqb a Py.LF).
      * change (not_char Py.CR Py.LF
                && str_forall (not_char Py.CR) (Py.universal_newlines r) = true).
        by rewrite IH1.
      * change (not_char Py.CR Py.LF
                && str_forall (not_char Py.CR)
                     (Py.universal_newlines (String a r)) = true).
        by rewrite IH2.
    + change (not_char Py.CR c
              && str_forall (not_char Py.CR)
                   (Py.universal_newlines (String a r)) = true).
      unfold not_char at 1. by rewrite Hc, IH2.
Qed.

(** Each line a file object yields is a body without line break, followed
    or not by a line feed. *)
Lemma keepends_bodies s :
  str_forall (not_char Py.CR) s = true ->
  Forall (fun l => exists body,
              (l = body \/ l = body +:+ nl) /\ no_line_break body = true)
         (Py.keepends s).
Proof.
  induction s as [|c r IH]; [constructor|]. simpl.
  intros [Hcr Hr]%andb_prop. specialize (IH Hr).
  destruct (Ascii.eqb c Py.LF) eqn:Hc.
  - constructor; [|done]. exists EmptyString. split; [by right|done].
  - assert (Hone : (not_char Py.LF c && not_char Py.CR c) = true).
    { unfold not_char at 1. by rewrite Hc, Hcr. }
    destruct (Py.keepends r) as [|l ls].
    + constructor; [|done]. exists (String c EmptyString).
      split; [by left|]. unfold no_line_break. simpl. by rewrite Hone.
    + inversion IH as [|? ? (body & Hl & Hb) Hls]; subst.
      constructor; [|done]. exists (String c body). split.
      * destruct Hl as [->| ->]; [by left|by right].
      * unfold no_line_break in *. simpl. by rewrite Hone, Hb.
Qed.

(** Whatever a file holds, the tags read from it are non-empty, stripped
    and free of line breaks. *)
Lemma file_tags_clean content :
  Forall (fun t => clean_tag t = true)
         (stripped_nonempty (Py.file_lines content)).
Proof.
  unfold stripped_nonempty, Py.file_lines.
  apply Forall_forall. intros t Ht. apply list_elem_of_In in Ht.
  apply List.filter_In in Ht as [Hin Htruthy].
  apply List.in_map_iff in Hin as (l & <- & Hl).
  apply list_elem_of_In in Hl.
  pose proof (keepends_bodies _ (universal_newlines_no_CR content)) as Hall.
  rewrite Forall_forall in Hall.
  destruct (Hall l Hl) as (body & Hbody & Hnb).
  assert (Hstrip : Py.strip l = Py.strip body).
  { destruct Hbody as [->| ->]; [done|]. by apply strip_snoc_space. }
  rewrite Hstrip in *. unfold clean_tag.
  rewrite Htruthy, strip_idem, String.eqb_refl. simpl.
  by apply str_forall_strip.
Qed.

End Stripping.

(** ** The walk over the library *)

Section Walk.
Context (E : Env) (options : ProcessingOptions).

Lemma update_item_tags_calls k new_tags st :
  exists st' new,
    update_item_tags k new_tags st = (Ok tt, st')
    /\ trace st' = trace st ++ new
    /\ Forall (fun e => is_item_call e = true) new
    /\ existing_tags st' = existing_tags st.
Proof.
  destruct (update_item_tags_only_io k new_tags st)
    as (st' & Heq & Hv & _).
  pose proof (update_item_tags_trace k new_tags st) as Htr.
  rewrite Heq in Htr. cbn in Htr.
  do 2 eexists. split; [exact Heq|]. split; [exact Htr|]. split; [|exact Hv].
  destruct (cat_items (catalog st) !! k) as [it|];
    [destruct (tags (data it))|]; by repeat constructor.
Qed.

Lemma http_not p new :
  (forall e, is_http e = true -> p e = false) ->
  Forall (fun e => is_http e = true) new -> count_events p new = 0%nat.
Proof.
  intros Hp Hnew. apply count_events_none.
  eapply Forall_impl; [exact Hnew|]. exact Hp.
Qed.

Lemma item_calls_not p new :
  (forall e, is_item_call e = true -> p e = false) ->
  Forall (fun e => is_item_call e = true) new -> count_events p new = 0%nat.
Proof.
  intros Hp Hnew. apply count_events_none.
  eapply Forall_impl; [exact Hnew|]. exact Hp.
Qed.

(** A tag that enters the vocabulary during a call was read off the
    response. *)
Lemma get_claude_suggestions_new_tags metadata st t :
  t ∈ existing_tags (snd (get_claude_suggestions E options metadata st)) ->
  t ∈ existing_tags st \/ stripped_tag t = true.
Proof.
  destruct (collect_content_parts_returns E options metadata st)
    as (web & pdf & st1 & Hc & (Hv & _)).
  rewrite (get_claude_suggestions_unfold E options _ _ _ _ Hc).
  unfold try_except. rewrite request_suggestions_spec.
  assert (Hnew : forall text,
             t ∈ existing_tags st1 ∪ list_to_set (parse_tags text) ->
             t ∈ existing_tags st \/ stripped_tag t = true).
  { intros text [Hin|Hin]%elem_of_union; [left; by rewrite <- Hv|right].
    apply elem_of_list_to_set in Hin.
    pose proof (parse_tags_stripped text) as Hall.
    rewrite Forall_forall in Hall. by apply Hall. }
  destruct (llm_text E st1 _) as [text|e]; cbn.
  - destruct (tags_file options) as [p|]; cbn; [|apply Hnew].
    destruct (decide (p ∈ readonly st1)); cbn; apply Hnew.
  - rewrite Hv. by left.
Qed.

(** What one iteration of the walk does, call by call. *)
Lemma process_item_calls total i item st :
  exists st' new,
    process_item E options total i item st = (Ok tt, st')
    /\ trace st' = trace st ++ new
    /\ count_events is_children_call new = 1%nat
    /\ count_events is_llm_call new = Nat.b2n (titled item)
    /\ count_events is_sleep new = Nat.b2n (titled item)
    /\ existing_tags st ⊆ existing_tags st'
    /\ (forall t, t ∈ existing_tags st' ->
                  t ∈ existing_tags st \/ stripped_tag t = true)
    /\ (titled item = false ->
        new = [ZotChildren (field (data item) "key")]
        /\ only_io st st'
        /\ last (log st')
           = Some (WARNING, MsgText "Skipping item with no title")).
Proof.
  unfold process_item, titled. run_monad.
  destruct (get_document_metadata_calls item st)
    as (metadata & st1 & -> & Htr1 & Htitle & Hkey & Hio1).
  cbn. rewrite Htitle.
  set (st1a := add_log INFO _ (add_log INFO _ st1)).
  assert (Hio1a : only_io st st1a) by (unfold st1a; auto with tagger_io).
  assert (Htr1a : trace st1a = trace st ++ [ZotChildren (field (data item) "key")])
    by exact Htr1.
  clearbody st1a.
  destruct (Py.truthy (field (data item) "title")); cbn.
  2:{ do 2 eexists. split; [done|]. cbn. split; [exact Htr1a|].
      do 3 (split; [done|]). pose proof Hio1a as (Hv & _). split; [|split].
      - by rewrite Hv.
      - intros t Ht. left. by rewrite <- Hv.
      - intros _. split; [done|]. split; [auto with tagger_io|].
        by rewrite last_snoc. }
  destruct (get_claude_suggestions_calls E options metadata st1a)
    as (suggested & st2 & http & prompt & Heq & Htr2 & Hhttp).
  destruct (get_claude_suggestions_step E options metadata st1a)
    as (suggested' & st2' & Heq' & Hsub & _).
  rewrite Heq in Heq'. injection Heq' as <- <-. rewrite Heq.
  assert (Hsub0 : existing_tags st ⊆ existing_tags st2).
  { destruct Hio1a as (Hv & _). by rewrite <- Hv. }
  assert (Hnew0 : forall t, t ∈ existing_tags st2 ->
                            t ∈ existing_tags st \/ stripped_tag t = true).
  { intros t Ht. destruct Hio1a as (Hv & _). rewrite <- Hv.
    apply (get_claude_suggestions_new_tags metadata st1a). by rewrite Heq. }
  destruct suggested as [|s0 rest]; cbn.
  - do 2 eexists. split; [done|]. cbn.
    rewrite Htr2, Htr1a, <- !app_assoc. split; [done|].
    rewrite !count_events_app.
    rewrite !(http_not _ http) by (done || by intros []).
    cbn. by repeat split.
  - set (st3 := add_log INFO (MsgExisting _)
                  (add_log INFO (MsgSuggested _) st2)).
    destruct (update_item_tags_calls (md_key metadata) (s0 :: rest) st3)
      as (st4 & upd & -> & Htr4 & Hupd & Hv4).
    cbn. do 2 eexists. split; [done|]. cbn.
    rewrite Htr4. unfold st3. cbn.
    rewrite Htr2, Htr1a, <- !app_assoc. split; [done|].
    rewrite !count_events_app.
    rewrite !(http_not _ http) by (done || by intros []).
    rewrite !(item_calls_not _ upd) by (done || by intros []).
    cbn. rewrite Hv4. by repeat split.
Qed.

Lemma process_items_calls total items : forall i st,
  exists st' new,
    process_items E options total i items st = (Ok tt, st')
    /\ trace st' = trace st ++ new
    /\ count_events is_children_call new = length items
    /\ count_events is_llm_call new = length (List.filter titled items)
    /\ count_events is_sleep new = length (List.filter titled items)
    /\ existing_tags st ⊆ existing_tags st'
    /\ (forall t, t ∈ existing_tags st' ->
                  t ∈ existing_tags st \/ stripped_tag t = true).
Proof.
  induction items as [|item rest IH]; intros i st.
  - exists st, []. rewrite app_nil_r. repeat split; auto.
  - cbn [process_items]. unfold bind.
    destruct (process_item_calls total i item st)
      as (st1 & new1 & -> & Htr1 & Hc1 & Hl1 & Hs1 & Hsub1 & Hnew1 & _).
    destruct (IH (S i) st1)
      as (st2 & new2 & -> & Htr2 & Hc2 & Hl2 & Hs2 & Hsub2 & Hnew2).
    exists st2, (new1 ++ new2). split; [done|].
    rewrite Htr2, Htr1, <- app_assoc. split; [done|].
    rewrite !count_events_app, Hc1, Hl1, Hs1, Hc2, Hl2, Hs2. cbn.
    assert (Hnew : forall t, t ∈ existing_tags st2 ->
                             t ∈ existing_tags st \/ stripped_tag t = true).
    { intros t Ht. destruct (Hnew2 t Ht) as [Hin|Hs]; [by apply Hnew1|by right]. }
    assert (Hsub : existing_tags st ⊆ existing_tags st2) by by etrans.
    by destruct (titled item).
Qed.

(** With the language model down, an iteration changes nothing but the
    log and the trace, and does not touch the catalog. *)
Lemma process_item_llm_down e total i item st :
  (forall h p, llm_create E h p = Raise e) ->
  exists st',
    process_item E options total i item st = (Ok tt, st')
    /\ only_io st st'
    /\ count_events is_item_call (trace st')
       = count_events is_item_call (trace st).
Proof.
  intros Hdown. unfold process_item. run_monad.
  destruct (get_document_metadata_calls item st)
    as (metadata & st1 & -> & Htr1 & _ & _ & Hio1).
  cbn.
  set (st1a := add_log INFO _ (add_log INFO _ st1)).
  assert (Hio1a : only_io st st1a) by (unfold st1a; auto with tagger_io).
  assert (Htr1a : count_events is_item_call (trace st1a)
                  = count_events is_item_call (trace st)).
  { change (trace st1a) with (trace st1).
    rewrite Htr1, count_events_app. cbn. lia. }
  clearbody st1a.
  destruct (Py.truthy (md_title metadata)); cbn.
  2:{ eexists. split; [done|]. split; [auto with tagger_io|done]. }
  destruct (collect_content_parts_http E options metadata st1a)
    as (parts & st2 & http & Hc & Htr2 & Hhttp).
  destruct (collect_content_parts_returns E options metadata st1a)
    as (web & pdf & st2' & Hc' & Hio2).
  rewrite Hc in Hc'. injection Hc' as -> <-.
  rewrite (get_claude_suggestions_caught E options metadata st1a _ st2 e Hc)
    by (unfold llm_text; by rewrite Hdown).
  cbn. eexists. split; [done|]. split.
  - eapply only_io_trans; [exact Hio1a|].
    eapply only_io_trans; [exact Hio2|].
    unfold suggestion_error. auto 10 with tagger_io.
  - cbn [trace add_event add_log]. rewrite !count_events_app, Htr2.
    rewrite count_events_app, (http_not _ http) by (done || by intros []).
    cbn. lia.
Qed.

Lemma process_items_llm_down e total items : forall i st,
  (forall h p, llm_create E h p = Raise e) ->
  exists st',
    process_items E options total i items st = (Ok tt, st')
    /\ only_io st st'
    /\ count_events is_item_call (trace st')
       = count_events is_item_call (trace st).
Proof.
  induction items as [|item rest IH]; intros i st Hdown.
  - exists st. split; [done|]. split; [apply only_io_refl|done].
  - cbn [process_items]. unfold bind.
    destruct (process_item_llm_down e total i item st Hdown)
      as (st1 & -> & Hio1 & Hc1).
    destruct (IH (S i) st1 Hdown) as (st2 & -> & Hio2 & Hc2).
    exists st2. split; [done|]. split; [|congruence].
    destruct Hio1 as (?&?&?&?&?), Hio2 as (?&?&?&?&?).
    repeat split; congruence.
Qed.

End Walk.

(** X1: an item without a title is skipped: the only external call made for
    it is the request for its children; a warning is logged and the
    vocabulary, the tags file and the catalog stay as they were. *)
Theorem untitled_item_is_skipped
  (E : Env) (options : ProcessingOptions) (total i : nat) (item : Item)
  (st : State) :
  Py.truthy (field (data item) "title") = false ->
  exists st',
    process_item E options total i item st = (Ok tt, st')
    /\ trace st' = trace st ++ [ZotChildren (field (data item) "key")]
    /\ existing_tags st' = existing_tags st
    /\ fs st' = fs st
    /\ catalog st' = catalog st
    /\ last (log st') = Some (WARNING, MsgText "Skipping item with no title").
Proof.
  intros Huntitled.
  destruct (process_item_calls E options total i item st)
    as (st' & new & Heq & Htr & _ & _ & _ & _ & _ & Hskip).
  destruct (Hskip Huntitled) as (-> & (Hv & Hfs & _ & Hcat & _) & Hlast).
  by exists st'.
Qed.

(** X2: the walk never raises, whatever the services answer.  It asks for
    the children of every item once, and calls the language model and
    sleeps exactly once for each item that has a title. *)
Theorem walk_calls_once_per_item
  (E : Env) (options : ProcessingOptions) (total i : nat) (items : list Item)
  (st : State) :
  exists st' new,
    process_items E options total i items st = (Ok tt, st')
    /\ trace st' = trace st ++ new
    /\ count_events is_children_call new = length items
    /\ count_events is_llm_call new = length (List.filter titled items)
    /\ count_events is_sleep new = length (List.filter titled items).
Proof.
  destruct (process_items_calls E options total items i st)
    as (st' & new & Heq & Htr & Hc & Hl & Hs & _).
  by exists st', new.
Qed.

(** X3: over a walk the vocabulary only grows, and every tag that enters
    it is non-empty, equal to its own [strip()] and free of line feeds. *)
Theorem vocabulary_grows_by_stripped_tags
  (E : Env) (options : ProcessingOptions) (total i : nat) (items : list Item)
  (st : State) :
  let st' := snd (process_items E options total i items st) in
  existing_tags st ⊆ existing_tags st'
  /\ (forall t, t ∈ existing_tags st' ->
                t ∈ existing_tags st
                \/ (Py.truthy t = true /\ Py.strip t = t
                    /\ str_forall (not_char Py.LF) t = true)).
Proof.
  destruct (process_items_calls E options total items i st)
    as (st' & new & Heq & _ & _ & _ & _ & Hsub & Hnew).
  rewrite Heq. cbn. split; [done|]. intros t Ht.
  destruct (Hnew t Ht) as [Hin|Hs]; [by left|right].
  unfold stripped_tag in Hs.
  apply andb_prop in Hs as [[H1 H2]%andb_prop H3].
  by apply String.eqb_eq in H2.
Qed.

(** X4: while the language model is down the walk still completes, and it
    changes neither the vocabulary, nor the tags file, nor the catalog,
    and sends the catalog no request for, or update of, a single item. *)
Theorem walk_survives_llm_outage
  (E : Env) (options : ProcessingOptions) (e : exn) (total i : nat)
  (items : list Item) (st : State) :
  (forall h p, llm_create E h p = Raise e) ->
  exists st',
    process_items E options total i items st = (Ok tt, st')
    /\ existing_tags st' = existing_tags st
    /\ fs st' = fs st
    /\ catalog st' = catalog st
    /\ count_events is_item_call (trace st')
       = count_events is_item_call (trace st).
Proof.
  intros Hdown.
  destruct (process_items_llm_down E options e total items i st Hdown)
    as (st' & Heq & (Hv & Hfs & _ & Hcat & _) & Hcount).
  by exists st'.
Qed.

Lemma untitled_item_is_skipped_witness :
  exists st',
    process_item (demo_env two_tags) demo_options 1 1 untitled_item empty_state
    = (Ok tt, st')
    /\ trace st' = [ZotChildren "K2"].
Proof.
  destruct (untitled_item_is_skipped (demo_env two_tags) demo_options 1 1
              untitled_item empty_state) as (st' & Heq & Htr & _);
    [reflexivity|].
  exists st'. split; [exact Heq|exact Htr].
Defined.

Lemma walk_survives_llm_outage_witness :
  exists st',
    process_items (demo_env llm_down) demo_options 1 1 [demo_item]
                  demo_catalog_state = (Ok tt, st')
    /\ catalog st' = catalog demo_catalog_state.
Proof.
  destruct (walk_survives_llm_outage (demo_env llm_down) demo_options
              (Exn "APIConnectionError" "Connection error.") 1 1 [demo_item]
              demo_catalog_state) as (st' & Heq & _ & _ & Hcat & _);
    [intros h p; reflexivity|].
  exists st'. split; [exact Heq|exact Hcat].
Defined.

(** ** Reading the tags file *)

Section Reading.
Context (options : ProcessingOptions).

Lemma load_existing_tags_frame st :
  fst (load_existing_tags options st) = Ok tt
  /\ fs (snd (load_existing_tags options st)) = fs st
  /\ readonly (snd (load_existing_tags options st)) = readonly st
  /\ catalog (snd (load_existing_tags options st)) = catalog st
  /\ trace (snd (load_existing_tags options st)) = trace st.
Proof.
  unfold load_existing_tags. run_monad.
  destruct (tags_file options) as [p|]; [|done].
  by destruct (fs st !! p).
Qed.


End Reading.

(** X5: whatever the tags file holds, every tag loaded from it is
    non-empty, equal to its own [strip()] and free of line feeds and
    carriage returns; saving the loaded vocabulary and loading it again
    gives the same vocabulary. *)
Theorem loaded_vocabulary_is_stable
  (options : ProcessingOptions) (p content : string) (st : State) :
  tags_file options = Some p ->
  fs st !! p = Some content ->
  p ∉ readonly st ->
  let st1 := snd (load_existing_tags options st) in
  let st2 := snd (save_existing_tags options st1) in
  (forall t, t ∈ existing_tags st1 -> clean_tag t = true)
  /\ fst (save_existing_tags options st1) = Ok tt
  /\ existing_tags (snd (load_existing_tags options st2)) = existing_tags st1.
Proof.
  intros Hp Hc Hw st1 st2.
  assert (Hv1 : existing_tags st1
                = list_to_set (stripped_nonempty (Py.file_lines content))).
  { by apply load_existing_tags_file with (p := p). }
  assert (Hclean : forall t, t ∈ existing_tags st1 -> clean_tag t = true).
  { intros t Ht. rewrite Hv1 in Ht. apply elem_of_list_to_set in Ht.
    pose proof (file_tags_clean content) as Hall.
    rewrite Forall_forall in Hall. by apply Hall. }
  destruct (load_existing_tags_frame options st) as (_ & _ & Hro & _).
  assert (Hw1 : p ∉ readonly st1) by (unfold st1; by rewrite Hro).
  destruct (save_existing_tags_ok options p st1 Hp Hw1) as (Hok & Hfs & _).
  split; [done|]. split; [done|].
  rewrite (load_existing_tags_file options p st2
             (write_lines (Py.sorted (elements (existing_tags st1)))) Hp).
  - rewrite read_write_lines by by apply sorted_elements_clean.
    rewrite sorted_perm. apply list_to_set_elements_L.
  - unfold st2. rewrite Hfs. apply lookup_insert_eq.
Qed.

Lemma loaded_vocabulary_is_stable_witness :
  let st1 := snd (load_existing_tags demo_options messy_file_state) in
  let st2 := snd (save_existing_tags demo_options st1) in
  existing_tags st1 = {[ "Transformers"; "Attention Mechanisms" ]}
  /\ existing_tags (snd (load_existing_tags demo_options st2))
     = existing_tags st1.
Proof.
  intros st1 st2.
  destruct (loaded_vocabulary_is_stable demo_options "tags.txt"
              messy_tags_file messy_file_state) as (_ & _ & Hload).
  - reflexivity.
  - reflexivity.
  - vm_compute. intros H. inversion H.
  - split; [vm_compute; reflexivity|exact Hload].
Defined.

(** ** Construction, when it succeeds *)




(** ** PDF attachments *)

Section Pdf.
Context (E : Env) (options : ProcessingOptions).

Lemma pdf_requests_app tr1 tr2 :
  pdf_requests (tr1 ++ tr2) = pdf_requests tr1 ++ pdf_requests tr2.
Proof.
  induction tr1 as [|e tr1 IH]; [done|]. cbn. destruct e; by rewrite ?IH.
Qed.

Lemma read_pages_ok ts : forall text,
  read_pages (map Ok ts) text = Ok (pages_text text ts).
Proof. induction ts as [|t ts IH]; intros text; [done|]. cbn. apply IH. Qed.

Lemma read_pages_raise pre e post : forall text,
  read_pages (map Ok pre ++ Raise e :: post) text = Raise e.
Proof. induction pre as [|t pre IH]; intros text; [done|]. cbn. apply IH. Qed.

Lemma extract_text_from_pdf_run pdf_url st pages :
  parse_pdf options = true ->
  fetch_pdf E (trace st) pdf_url = Ok pages ->
  extract_text_from_pdf E options pdf_url st
  = match read_pages (take 5%nat pages) EmptyString with
    | Ok text =>
        (Ok (Some (truncate_words text)), add_event (HttpGetPdf pdf_url) st)
    | Raise e =>
        (Ok None,
         add_log ERROR (MsgText ("Error extracting PDF text: " +:+ exn_str e))
           (add_event (HttpGetPdf pdf_url) st))
    end.
Proof.
  unfold extract_text_from_pdf, requests_get_pdf.
  intros -> Hf. run_monad. cbn. rewrite Hf. cbn.
  by destruct (read_pages (take 5%nat pages) EmptyString).
Qed.

End Pdf.

(** X7: a PDF is downloaded only when PDF parsing is asked for:
    [extract_text_from_pdf] makes one request when [parse_pdf] is set and
    otherwise returns [None] with the state untouched; while the content of
    an item is collected, the PDF requested is the item's PDF URL, when that
    URL is non-empty and [parse_pdf] is set, and none otherwise. *)
Theorem pdf_download_policy
  (E : Env) (options : ProcessingOptions) (pdf_url : string) (st : State) :
  let out := extract_text_from_pdf E options pdf_url st in
  (if parse_pdf options
   then trace (snd out) = trace st ++ [HttpGetPdf pdf_url]
   else out = (Ok None, st))
  /\ (forall metadata,
        pdf_requests
          (trace (snd (collect_content_parts E options metadata st)))
        = pdf_requests (trace st)
          ++ (if opt_truthy (md_pdf_attachment metadata) && parse_pdf options
              then [default EmptyString (md_pdf_attachment metadata)]
              else [])).
Proof.
  split.
  - destruct (extract_text_from_pdf_calls E options pdf_url st)
      as (r & st' & Heq & Htr).
    rewrite Heq. cbn. destruct (parse_pdf options) eqn:Hp; [done|].
    unfold extract_text_from_pdf in *. by rewrite Hp in *.
  - intros metadata.
    destruct (collect_content_parts_calls E options metadata st)
      as (parts & st' & -> & Htr).
    cbn [snd]. rewrite Htr, !pdf_requests_app. f_equal.
    destruct (Py.truthy _ && _); destruct (opt_truthy _ && _); done.
Qed.

(** X8: only the first five pages of a PDF are read.  When each of them
    gives its text, the excerpt is taken from these texts, each followed by
    a line feed, whatever the later pages would do; when one of them
    raises, the result is [None] and the error is logged. *)
Theorem pdf_reads_five_pages
  (E : Env) (options : ProcessingOptions) (pdf_url : string) (st : State) :
  parse_pdf options = true ->
  (forall first later,
     fetch_pdf E (trace st) pdf_url = Ok (map Ok first ++ later) ->
     length first = 5%nat \/ later = [] ->
     (length first <= 5)%nat ->
     fst (extract_text_from_pdf E options pdf_url st)
     = Ok (Some (truncate_words (pages_text EmptyString first))))
  /\ (forall before e later,
        fetch_pdf E (trace st) pdf_url = Ok (map Ok before ++ Raise e :: later) ->
        (length before < 5)%nat ->
        extract_text_from_pdf E options pdf_url st
        = (Ok None,
           add_log ERROR
             (MsgText ("Error extracting PDF text: " +:+ exn_str e))
             (add_event (HttpGetPdf pdf_url) st))).
Proof.
  intros Hp. split.
  - intros first later Hf Hshape Hlen.
    rewrite (extract_text_from_pdf_run E options _ _ _ Hp Hf).
    assert (Htake : take 5%nat (map Ok first ++ later)
                    = map (@Ok string) first).
    { destruct Hshape as [H5| ->].
      - rewrite take_app_length'; [done|]. by rewrite length_map.
      - rewrite app_nil_r. apply take_ge. rewrite length_map. lia. }
    by rewrite Htake, read_pages_ok.
  - intros before e later Hf Hlen.
    rewrite (extract_text_from_pdf_run E options _ _ _ Hp Hf).
    assert (Htake : exists later',
               take 5%nat (map Ok before ++ Raise e :: later)
               = map (@Ok string) before ++ Raise e :: later').
    { exists (take (5 - S (length before))%nat later).
      rewrite take_app_ge by (rewrite length_map; lia).
      rewrite length_map. f_equal.
      destruct (5 - length before)%nat as [|n] eqn:Hn; [lia|].
      cbn. f_equal. f_equal. lia. }
    destruct Htake as (later' & ->). by rewrite read_pages_raise.
Qed.

Lemma pdf_reads_five_pages_witness :
  fst (extract_text_from_pdf (demo_env two_tags) demo_options
         "https://example.org/a.pdf" empty_state)
  = Ok (Some "Abstract The dominant models").
Proof.
  destruct (pdf_reads_five_pages (demo_env two_tags) demo_options
              "https://example.org/a.pdf" empty_state eq_refl) as [Hok _].
  exact (Hok ["Abstract  The dominant"; "models"] [] eq_refl
             (or_intror eq_refl) ltac:(cbn; lia)).
Defined.

Section Attachments.

Lemma find_pdf_first before a u after :
  forallb passed_over before = true ->
  contentType a = Some "application/pdf" ->
  att_url a = Some u ->
  find_pdf (before ++ a :: after) = Ok (Some u).
Proof.
  intros Hb Hct Hu. induction before as [|b before IH]; cbn.
  - by rewrite Hct, Hu.
  - cbn in Hb. apply andb_prop in Hb as [Hb Hrest].
    unfold passed_over in Hb. destruct (contentType b) as [ct|]; [|done].
    destruct (String.eqb ct "application/pdf"); [|by apply IH].
    destruct (att_url b); [done|by apply IH].
Qed.

Lemma find_pdf_untyped before a after :
  forallb passed_over before = true ->
  contentType a = None ->
  find_pdf (before ++ a :: after) = Raise (Exn "KeyError" "'contentType'").
Proof.
  intros Hb Hct. induction before as [|b before IH]; cbn.
  - by rewrite Hct.
  - cbn in Hb. apply andb_prop in Hb as [Hb Hrest].
    unfold passed_over in Hb. destruct (contentType b) as [ct|]; [|done].
    destruct (String.eqb ct "application/pdf"); [|by apply IH].
    destruct (att_url b); [done|by apply IH].
Qed.

End Attachments.

(** X9: the PDF of an item is the URL of its first child that is a PDF and
    carries a URL; children of other types and PDFs without a URL before it
    are passed over, and what comes after it is not looked at. *)
Theorem first_pdf_with_url_is_used
  (item : Item) (st : State) (before after : list Attachment)
  (a : Attachment) (u : string) :
  cat_children (catalog st) !! field (data item) "key"
  = Some (before ++ a :: after) ->
  forallb passed_over before = true ->
  contentType a = Some "application/pdf" ->
  att_url a = Some u ->
  exists metadata st',
    get_document_metadata item st = (Ok metadata, st')
    /\ md_pdf_attachment metadata = Some u
    /\ log st' = log st.
Proof.
  intros Hch Hb Hct Hu.
  unfold get_document_metadata, zot_children. run_monad. cbn.
  rewrite Hch. cbn. rewrite (find_pdf_first before a u after Hb Hct Hu). cbn.
  by do 2 eexists.
Qed.

Lemma first_pdf_with_url_is_used_witness :
  exists metadata st',
    get_document_metadata demo_item
      (children_state [snapshot; stored_pdf; linked_pdf; note_child])
    = (Ok metadata, st')
    /\ md_pdf_attachment metadata = Some "https://example.org/a.pdf".
Proof.
  destruct (first_pdf_with_url_is_used demo_item
              (children_state [snapshot; stored_pdf; linked_pdf; note_child])
              [snapshot; stored_pdf] [note_child] linked_pdf
              "https://example.org/a.pdf" eq_refl eq_refl eq_refl eq_refl)
    as (metadata & st' & Heq & Hpdf & _).
  exists metadata, st'. split; [exact Heq|exact Hpdf].
Defined.

(** X10: a child without a content type, met before any PDF with a URL,
    ends the scan of the children: the error is logged and the item is
    taken to have no PDF, even when a PDF follows; the other fields of the
    record are still returned. *)
Theorem untyped_child_hides_pdf
  (item : Item) (st : State) (before after : list Attachment)
  (a : Attachment) :
  cat_children (catalog st) !! field (data item) "key"
  = Some (before ++ a :: after) ->
  forallb passed_over before = true ->
  contentType a = None ->
  exists metadata st',
    get_document_metadata item st = (Ok metadata, st')
    /\ md_pdf_attachment metadata = None
    /\ md_title metadata = field (data item) "title"
    /\ md_url metadata = field (data item) "url"
    /\ log st'
       = log st ++ [(ERROR, MsgText "Error getting attachments: 'contentType'")].
Proof.
  intros Hch Hb Hct.
  unfold get_document_metadata, zot_children. run_monad. cbn.
  rewrite Hch. cbn. rewrite (find_pdf_untyped before a after Hb Hct). cbn.
  by do 2 eexists.
Qed.

Lemma untyped_child_hides_pdf_witness :
  exists metadata st',
    get_document_metadata demo_item
      (children_state [snapshot; note_child; linked_pdf])
    = (Ok metadata, st')
    /\ md_pdf_attachment metadata = None.
Proof.
  destruct (untyped_child_hides_pdf demo_item
              (children_state [snapshot; note_child; linked_pdf])
              [snapshot] [linked_pdf] note_child eq_refl eq_refl eq_refl)
    as (metadata & st' & Heq & Hpdf & _).
  exists metadata, st'. split; [exact Heq|exact Hpdf].
Defined.

(** ** The merged tag list *)

Section MergedTags.

Lemma elem_of_fresh_tags new_tags : forall seen t,
  t ∈ fresh_tags seen new_tags <-> t ∈ new_tags /\ t ∉ seen.
Proof.
  induction new_tags as [|u rest IH]; intros seen t; cbn.
  - rewrite elem_of_nil. tauto.
  - destruct (decide (u ∈ seen)) as [Hin|Hout].
    + rewrite IH, elem_of_cons. split; [tauto|].
      intros [[->|Ht] Hns]; [done|tauto].
    + rewrite !elem_of_cons, IH, elem_of_app, list_elem_of_singleton.
      split.
      * intros [->|[Ht Hns]]; [tauto|]. tauto.
      * intros [[->|Ht] Hns]; [tauto|].
        destruct (decide (t = u)) as [->|Hne]; [tauto|]. right. tauto.
Qed.

Lemma NoDup_fresh_tags new_tags : forall seen,
  NoDup (fresh_tags seen new_tags).
Proof.
  induction new_tags as [|u rest IH]; intros seen; cbn; [constructor|].
  destruct (decide (u ∈ seen)); [apply IH|].
  constructor; [|apply IH]. rewrite elem_of_fresh_tags, elem_of_app.
  intros [_ Hns]. apply Hns. right. by apply list_elem_of_singleton.
Qed.

Lemma length_fresh_tags new_tags : forall seen,
  (length (fresh_tags seen new_tags) <= length new_tags)%nat.
Proof.
  induction new_tags as [|u rest IH]; intros seen; cbn; [done|].
  destruct (decide (u ∈ seen)); cbn.
  - specialize (IH seen). lia.
  - specialize (IH (seen ++ [u])). lia.
Qed.

Lemma merge_tags_names cur new_tags :
  map tag (merge_tags cur new_tags)
  = map tag cur ++ fresh_tags (map tag cur) new_tags.
Proof.
  rewrite merge_tags_appends, map_app. f_equal.
  rewrite map_map. apply map_id.
Qed.

End MergedTags.

(** X11: after the merge the item carries exactly the tags it had and the
    suggested ones; no tag name that was unique becomes repeated, so a tag
    list without repetition stays so; and the list grows by at most the
    number of suggestions. *)
Theorem merged_tags_are_the_union
  (cur : list TagEntry) (new_tags : list string) :
  (forall t, t ∈ map tag (merge_tags cur new_tags)
             <-> t ∈ map tag cur \/ t ∈ new_tags)
  /\ (NoDup (map tag cur) -> NoDup (map tag (merge_tags cur new_tags)))
  /\ (length (merge_tags cur new_tags) <= length cur + length new_tags)%nat.
Proof.
  split; [|split].
  - intros t. rewrite merge_tags_names, elem_of_app, elem_of_fresh_tags.
    destruct (decide (t ∈ map tag cur)); tauto.
  - intros Hnd. rewrite merge_tags_names. apply NoDup_app.
    split; [done|]. split; [|apply NoDup_fresh_tags].
    intros t Hin Hfresh. apply elem_of_fresh_tags in Hfresh. tauto.
  - rewrite merge_tags_appends, length_app, length_map.
    pose proof (length_fresh_tags new_tags (map tag cur)). lia.
Qed.

(** ** What the prompt holds *)

Section PromptContent.
Context (E : Env).

Local Arguments Py.isspace : simpl never.

Lemma str_app_nil_r (s : string) : s +:+ EmptyString = s.
Proof. induction s as [|c r IH]; [done|]. by rewrite append_cons, IH. Qed.

Lemma contains_refl s : contains s s = true.
Proof. rewrite <- (str_app_nil_r s) at 2. apply contains_here. Qed.

Lemma prefix_app_l a : forall needle b,
  String.prefix needle a = true -> String.prefix needle (a +:+ b) = true.
Proof.
  induction a as [|c a IH]; intros needle b.
  - destruct needle; [by destruct b|done].
  - destruct needle as [|d needle]; [done|]. rewrite append_cons. simpl.
    destruct (Ascii.ascii_dec d c); [apply IH|done].
Qed.

Lemma contains_app_l needle a b :
  contains needle a = true -> contains needle (a +:+ b) = true.
Proof.
  induction a as [|c a IH].
  - rewrite contains_unfold, orb_false_r. intros H.
    destruct needle; [by destruct b|done].
  - rewrite append_cons, (contains_unfold needle (String c a)),
      (contains_unfold needle (String c (a +:+ b))).
    intros [H|H]%orb_prop.
    + rewrite <- append_cons, (prefix_app_l _ _ _ H). done.
    + rewrite (IH H). apply orb_true_r.
Qed.

Lemma join_has_part sep parts part :
  part ∈ parts -> contains part (Py.join sep parts) = true.
Proof.
  induction parts as [|p rest IH]; [by intros ?%elem_of_nil|].
  intros [->|Hin]%elem_of_cons.
  - destruct rest; [apply contains_refl|apply contains_here].
  - destruct rest as [|q rest]; [by apply elem_of_nil in Hin|].
    change (Py.join sep (p :: q :: rest))
      with (p +:+ sep +:+ Py.join sep (q :: rest)).
    by do 2 apply contains_skip; apply IH.
Qed.

Lemma split_blank s : str_forall Py.isspace s = true -> Py.split s = [].
Proof.
  induction s as [|c r IH]; [done|]. simpl str_forall.
  intros [Hc Hr]%andb_prop. by rewrite split_cons, Hc, IH.
Qed.

End PromptContent.

(** X12: whichever template is chosen, the prompt holds every collected
    content part, word for word, and the rendering of the sorted
    vocabulary. *)
Theorem prompt_holds_content_and_vocabulary
  (E : Env) (vocabulary : gset string) (title : string)
  (content_parts : list string) :
  let prompt := build_prompt E vocabulary title content_parts in
  (forall part, part ∈ content_parts -> contains part prompt = true)
  /\ contains (str_of_list E (Py.sorted (elements vocabulary))) prompt = true.
Proof.
  cbv zeta. unfold build_prompt.
  destruct ((length content_parts =? 1)%nat && Py.truthy title) eqn:Hc.
  - apply andb_prop in Hc as [Hlen _]. apply Nat.eqb_eq in Hlen.
    destruct content_parts as [|p [|q rest]]; try done. cbn. split.
    + intros part ->%list_elem_of_singleton. unfold title_only_prompt.
      repeat first [apply contains_here | apply contains_skip].
    + unfold title_only_prompt.
      repeat first [apply contains_here | apply contains_skip].
  - split.
    + intros part Hin. unfold multi_field_prompt.
      do 9 apply contains_skip. apply contains_app_l.
      by apply join_has_part.
    + unfold multi_field_prompt.
      repeat first [apply contains_here | apply contains_skip].
Qed.

(** X13: an extracted text made of whitespace only gives the empty
    excerpt, which is not counted as content: with such a page and neither
    abstract nor PDF, the prompt is the title-only one. *)
Theorem blank_text_is_no_content
  (E : Env) (vocabulary : gset string) (title text : string) :
  str_forall Py.isspace text = true ->
  Py.truthy title = true ->
  truncate_words text = EmptyString
  /\ assemble title EmptyString (Some (truncate_words text)) None
     = ["Title: " +:+ title]
  /\ build_prompt E vocabulary title
       (assemble title EmptyString (Some (truncate_words text)) None)
     = title_only_prompt (str_of_list E (Py.sorted (elements vocabulary)))
                         ("Title: " +:+ title).
Proof.
  intros Hblank Htitle.
  assert (Hex : truncate_words text = EmptyString).
  { unfold truncate_words. by rewrite split_blank. }
  rewrite Hex. split; [done|].
  unfold build_prompt, assemble, append_part. rewrite Htitle. by cbn.
Qed.

Lemma blank_text_is_no_content_witness :
  truncate_words ("  " +:+ nl +:+ " ") = EmptyString.
Proof.
  exact (proj1 (blank_text_is_no_content (demo_env two_tags) ∅
                  "Attention Is All You Need" ("  " +:+ nl +:+ " ")
                  eq_refl eq_refl)).
Defined.



(** ** From the answer of the language model to the catalog *)

(** X15: one iteration of the walk, end to end.  For an item with a title
    that the catalog holds under its key with a tag list, when the language
    model answers with a text that names at least one tag and the tags file
    can be written, the iteration completes, the item in the catalog
    carries its old tags followed by the new ones among the tags read off
    the answer, and these tags are all in the vocabulary. *)
Theorem suggested_tags_reach_the_item
  (E : Env) (options : ProcessingOptions) (total i : nat) (item it : Item)
  (st : State) (text : string) (cur : list TagEntry) :
  Py.truthy (field (data item) "title") = true ->
  (forall h p, llm_create E h p = Ok [TextBlock text]) ->
  parse_tags text <> [] ->
  (forall p, tags_file options = Some p -> p ∉ readonly st) ->
  cat_items (catalog st) !! field (data item) "key" = Some it ->
  key it = field (data item) "key" ->
  tags (data it) = Some cur ->
  exists st',
    process_item E options total i item st = (Ok tt, st')
    /\ item_tags st' (key it) = Some (merge_tags cur (parse_tags text))
    /\ (forall t, t ∈ parse_tags text -> t ∈ existing_tags st').
Proof.
  intros Htitled Hllm Hsome Hw Hit Hkeyit Hcur.
  unfold process_item. run_monad.
  destruct (get_document_metadata_calls item st)
    as (metadata & st1 & -> & _ & Htitle & Hkey & Hio1).
  cbn. rewrite Htitle, Htitled. cbn.
  set (st1a := add_log INFO _ (add_log INFO _ st1)).
  assert (Hio1a : only_io st st1a) by (unfold st1a; auto with tagger_io).
  clearbody st1a.
  destruct (collect_content_parts_returns E options metadata st1a)
    as (web & pdf & st2 & Hc & Hio2).
  pose proof (only_io_trans _ _ _ Hio1a Hio2) as (_ & _ & Hro2 & _).
  destruct (get_claude_suggestions_completes E options metadata st1a _ st2
              text Hc) as (st3 & Heq & Hv3 & _).
  { unfold llm_text. by rewrite Hllm. }
  { intros p Hp. rewrite Hro2. by apply Hw. }
  destruct (get_claude_suggestions_step E options metadata st1a)
    as (suggested & st3' & Heq' & _ & _ & Hcat3 & _).
  rewrite Heq in Heq'. injection Heq' as <- <-. rewrite Heq.
  assert (Hcat : catalog st3 = catalog st).
  { destruct Hio1a as (_ & _ & _ & Hcat1 & _). congruence. }
  destruct (parse_tags text) as [|s0 rest] eqn:Htags; [done|]. cbn.
  set (st3a := add_log INFO (MsgExisting _)
                 (add_log INFO (MsgSuggested _) st3)).
  pose proof (update_item_tags_items (md_key metadata) (s0 :: rest) st3a)
    as Hitems.
  destruct (update_item_tags_only_io (md_key metadata) (s0 :: rest) st3a)
    as (st4 & Hupd & Hv4 & _).
  rewrite Hupd in Hitems. rewrite Hupd. cbn in Hitems. cbn.
  change (catalog st3a) with (catalog st3) in Hitems.
  rewrite Hcat, Hkey, Hit, Hcur, Hkeyit, Hit in Hitems.
  destruct (decide (version it = version it)); [|done].
  eexists. split; [done|]. split.
  - unfold item_tags. cbn. rewrite Hitems, Hkeyit, lookup_insert_eq. done.
  - intros t Ht. cbn. rewrite Hv4. unfold st3a. cbn. rewrite Hv3.
    apply elem_of_union. right. by apply elem_of_list_to_set.
Qed.

Lemma suggested_tags_reach_the_item_witness :
  exists st',
    process_item (demo_env two_tags) demo_options 1 1 demo_item
                 demo_catalog_state = (Ok tt, st')
    /\ item_tags st' "K1"
       = Some (merge_tags [{| tag := "Seminal"; tag_type := Some 1 |}]
                 (parse_tags ("Transformers" +:+ nl +:+ "Attention Mechanisms"
                              +:+ nl))).
Proof.
  destruct (suggested_tags_reach_the_item (demo_env two_tags) demo_options
              1 1 demo_item demo_item demo_catalog_state
              ("Transformers" +:+ nl +:+ "Attention Mechanisms" +:+ nl)
              [{| tag := "Seminal"; tag_type := Some 1 |}])
    as (st' & Heq & Htags & _).
  - reflexivity.
  - intros h p. reflexivity.
  - vm_compute. discriminate.
  - intros p _. vm_compute. intros H. inversion H.
  - reflexivity.
  - reflexivity.
  - reflexivity.
  - exists st'. split; [exact Heq|exact Htags].
Defined.

(** ** Reading an answer *)

Section Answer.

Local Arguments Py.isspace : simpl never.

Lemma split_on_line t rest :
  str_forall (not_char Py.LF) t = true ->
  Py.split_on Py.LF (t +:+ nl +:+ rest) = t :: Py.split_on Py.LF rest.
Proof.
  induction t as [|c r IH]; [done|]. simpl.
  intros [Hc Hr]%andb_prop. unfold not_char in Hc.
  apply negb_true_iff in Hc. by rewrite Hc, IH.
Qed.

Lemma split_on_single t :
  str_forall (not_char Py.LF) t = true -> Py.split_on Py.LF t = [t].
Proof.
  induction t as [|c r IH]; [done|]. simpl.
  intros [Hc Hr]%andb_prop. unfold not_char in Hc.
  apply negb_true_iff in Hc. by rewrite Hc, IH.
Qed.

Lemma stripped_tag_parts t :
  stripped_tag t = true ->
  Py.truthy t = true /\ Py.strip t = t
  /\ str_forall (not_char Py.LF) t = true.
Proof.
  unfold stripped_tag. intros [[H1 H2]%andb_prop H3]%andb_prop.
  by apply String.eqb_eq in H2.
Qed.

Lemma stripped_nonempty_id ts :
  Forall (fun t => stripped_tag t = true) ts -> stripped_nonempty ts = ts.
Proof.
  unfold stripped_nonempty. induction 1 as [|t ts Ht _ IH]; [done|].
  destruct (stripped_tag_parts t Ht) as (Hne & Hfix & _).
  cbn [map List.filter]. by rewrite Hfix, Hne, IH.
Qed.

Lemma split_on_write_lines ts :
  Forall (fun t => stripped_tag t = true) ts ->
  Py.split_on Py.LF (write_lines ts) = ts ++ [EmptyString].
Proof.
  induction 1 as [|t ts Ht _ IH]; [done|]. cbn [write_lines].
  destruct (stripped_tag_parts t Ht) as (_ & _ & Hlf).
  by rewrite split_on_line, IH.
Qed.

Lemma split_on_join ts :
  Forall (fun t => stripped_tag t = true) ts ->
  ts <> [] ->
  Py.split_on Py.LF (Py.join nl ts) = ts.
Proof.
  induction 1 as [|t ts Ht Hts IH]; [done|]. intros _.
  destruct (stripped_tag_parts t Ht) as (_ & _ & Hlf).
  destruct ts as [|u ts]; [by apply split_on_single|].
  change (Py.join nl (t :: u :: ts)) with (t +:+ nl +:+ Py.join nl (u :: ts)).
  by rewrite split_on_line, IH.
Qed.

End Answer.

(** X16: an answer that lists tags one per line is read back as these very
    tags, in order, whether or not the last line ends with a line feed,
    provided each tag is non-empty, equal to its own [strip()] and free of
    line feeds. *)
Theorem answer_lines_are_the_tags (ts : list string) :
  Forall (fun t => stripped_tag t = true) ts ->
  parse_tags (write_lines ts) = ts /\ parse_tags (Py.join nl ts) = ts.
Proof.
  intros Hts. unfold parse_tags. split.
  - rewrite split_on_write_lines by done.
    unfold stripped_nonempty. rewrite map_app, List.filter_app. cbn.
    rewrite app_nil_r. by apply stripped_nonempty_id.
  - destruct ts as [|t ts]; [done|].
    rewrite split_on_join by done. by apply stripped_nonempty_id.
Qed.

Lemma answer_lines_are_the_tags_witness :
  parse_tags (write_lines ["Transformers"; "Attention Mechanisms"])
  = ["Transformers"; "Attention Mechanisms"]
  /\ parse_tags (Py.join nl ["Transformers"; "Attention Mechanisms"])
     = ["Transformers"; "Attention Mechanisms"].
Proof.
  apply (answer_lines_are_the_tags ["Transformers"; "Attention Mechanisms"]).
  repeat constructor.
Defined.
